(** * pandas/core/indexes/extension.py

    Shared methods for Index subclasses backed by an ExtensionArray.

    The module is a delegation layer: an [ExtensionIndex] holds a backing
    array in [_data] and forwards comparison, arithmetic, structural edits
    and casts to it.  The backing arrays, the generic [Index] base class and
    a few helpers live in other modules; they enter this development through
    the [Collaborators] interface, and a small reference implementation of
    that interface ([Reference]) serves to run the model on the sample
    indexes of [Sample]. *)

From Stdlib Require Import ZArith String List Bool Lia.
From stdpp Require Import base decidable option list strings gmap.

Local Open Scope string_scope.
Local Open Scope list_scope.

(** ** Python runtime values *)

Module Py.

(** Exceptions the module raises or lets through.  [SystemError] stands for
    a reference to an object that is not in the store, which a running
    interpreter never produces. *)
Inductive exn :=
| ValueError (msg : string)
| TypeError (msg : string)
| IndexError (msg : string)
| AttributeError (msg : string)
| AssertionError
| RecursionError
| SystemError.

Inductive result (A : Type) :=
| Ok (a : A)
| Err (e : exn).
Arguments Ok {A} a.
Arguments Err {A} e.

(** A class: its [__name__], the names of the further classes of its
    [__mro__], and the [_data_cls] class attribute where the class pins
    one.  Class names are taken to be unique. *)
Record PyType := mkType {
  tp_name : string;
  tp_bases : list string;
  tp_data_cls : option string
}.

(** [issubclass C "N"]: N is C itself or one of its ancestors. *)
Definition issubclass (C : PyType) (name : string) : bool :=
  bool_decide (name ∈ tp_name C :: tp_bases C).

(** numpy dtypes, with the one-letter [kind] numpy gives them. *)
Inductive TimeUnit := unit_D | unit_s | unit_ms | unit_us | unit_ns.

Inductive NumpyDtype :=
| np_bool
| np_int64
| np_uint64
| np_float64
| np_object
| np_datetime64 (u : TimeUnit)
| np_timedelta64 (u : TimeUnit).

Definition kind (d : NumpyDtype) : string :=
  match d with
  | np_bool => "b"
  | np_int64 => "i"
  | np_uint64 => "u"
  | np_float64 => "f"
  | np_object => "O"
  | np_datetime64 _ => "M"
  | np_timedelta64 _ => "m"
  end.

Inductive Scalar :=
| SInt (z : Z)
| SBool (b : bool)
| SStr (s : string)
| STimestamp (ns : Z)
| STimedelta (ns : Z)
| SPeriod (ordinal : Z)
| SInterval (left right : Z)
| SNaT.

(** A dtype is a [np.dtype] or a pandas ExtensionDtype: a categorical
    dtype with its categories, or one of the others (tz-aware datetime,
    period, interval) identified by its canonical string. *)
Inductive Dtype :=
| Np (d : NumpyDtype)
| CategoricalDtype (categories : list Scalar)
| Ext (name : string).

(** An array value: runtime class, dtype and elements.  Arrays are treated
    as immutable values; an index refers to its array by value. *)
Record Arr := mkArr {
  arr_type : PyType;
  arr_dtype : Dtype;
  arr_values : list Scalar
}.

Definition Name := option string.

Abbreviation loc := nat (only parsing).

#[warnings="-register-all"]
Inductive PyVal :=
| VIndex (l : loc)
| VSeries (values : Arr) (name : Name)
| VDataFrame (columns : list Arr) (index : option loc)
| VArray (a : Arr)
| VScalar (x : Scalar)
| VBool (b : bool)
| VTuple (xs : list PyVal)
| VNotImplemented.

(** An [Index] object in the store. *)
Record IndexObj := mkIndex {
  ob_type : PyType;
  _data : Arr;
  _name : Name;
  _cache : gmap string PyVal
}.

Abbreviation heap := (list IndexObj) (only parsing).

#[global] Instance TimeUnit_eq_dec : EqDecision TimeUnit.
Proof. solve_decision. Defined.
#[global] Instance NumpyDtype_eq_dec : EqDecision NumpyDtype.
Proof. solve_decision. Defined.
#[global] Instance Scalar_eq_dec : EqDecision Scalar.
Proof. solve_decision. Defined.
#[global] Instance Dtype_eq_dec : EqDecision Dtype.
Proof. solve_decision. Defined.
#[global] Instance PyType_eq_dec : EqDecision PyType.
Proof. solve_decision. Defined.
#[global] Instance Arr_eq_dec : EqDecision Arr.
Proof. solve_decision. Defined.

(** *** Computations: a store of index objects and exceptions *)

Inductive outcome (A : Type) :=
| Return (a : A) (h : heap)
| Raise (e : exn) (h : heap).
Arguments Return {A} a h.
Arguments Raise {A} e h.

Definition M (A : Type) := heap -> outcome A.

Definition ret {A} (a : A) : M A := fun h => Return a h.
Definition raise {A} (e : exn) : M A := fun h => Raise e h.
Definition bind {A B} (c : M A) (k : A -> M B) : M B :=
  fun h => match c h with
           | Return a h' => k a h'
           | Raise e h' => Raise e h'
           end.
Definition lift {A} (r : result A) : M A :=
  match r with
  | Ok a => ret a
  | Err e => raise e
  end.

Definition deref (l : loc) : M IndexObj :=
  fun h => match h !! l with
           | Some o => Return o h
           | None => Raise SystemError h
           end.

(** A new object goes to the first free address. *)
Definition alloc (o : IndexObj) : M loc :=
  fun h => Return (length h) (h ++ [o]).

Definition store (l : loc) (o : IndexObj) : M unit :=
  fun h => Return tt (<[l := o]> h).

End Py.
Export Py.

Declare Scope py_scope.
Delimit Scope py_scope with py.
Notation "x <- c ;; k" := (bind c (fun x => k))
  (at level 100, c at next level, right associativity) : py_scope.
Notation "c ;;; k" := (bind c (fun _ => k))
  (at level 100, right associativity) : py_scope.
Local Open Scope py_scope.

(** ** Collaborators outside the module *)

(** A position argument that may be a single integer or a sequence of them
    ([delete] and [repeat] pass it through untouched). *)
Inductive IntOrSeq :=
| One (z : Z)
| Many (zs : list Z).

(** The methods the module calls on [self._data] and on the generic base.
    [ea_getattr a opname] is [getattr(a, opname)]: a bound method, or
    nothing where the array class has no such attribute.
    [has_data_attribute C] tells whether the instances of the index class
    [C] have an attribute [_data] at all. *)
Class Collaborators := {
  ea_insert : Arr -> Z -> Scalar -> result Arr;
  ea_delete : Arr -> IntOrSeq -> result Arr;
  ea_repeat : Arr -> IntOrSeq -> option Z -> result Arr;
  ea_astype : Arr -> Dtype -> bool -> result Arr;
  ea_equals : Arr -> Arr -> bool;
  ea_validate_setitem_value : Arr -> Scalar -> result Scalar;
  ea_getattr : Arr -> string -> option (PyVal -> result PyVal);
  _find_common_type_compat : IndexObj -> Scalar -> result Dtype;
  _dtype_to_subclass : Dtype -> PyType;
  sanitize_array : PyVal -> result Arr;
  Index_insert_values : IndexObj -> Z -> Scalar -> result Arr;
  Index_astype_values : IndexObj -> Dtype -> bool -> result Arr;
  validate_repeat : option Z -> result unit;
  has_data_attribute : PyType -> bool
}.

(** [pandas_dtype] normalises a dtype specification; the model works with
    normalised dtypes, on which it is the identity. *)
Definition pandas_dtype (dtype : Dtype) : Dtype := dtype.

Definition is_dtype_equal (source target : Dtype) : bool :=
  bool_decide (source = target).

Definition is_object_dtype (d : Dtype) : bool :=
  bool_decide (d = Np np_object).

(** [isinstance(d, np.dtype)] *)
Definition is_np_dtype (d : Dtype) : bool :=
  match d with
  | Np _ => true
  | _ => false
  end.

Definition dtype_kind (d : Dtype) : option string :=
  match d with
  | Np n => Some (kind n)
  | _ => None
  end.

(** [str.replace(old, new)] for a non-empty [old]. *)
Fixpoint replace_from (old new : string) (skip : nat) (s : string) : string :=
  match s with
  | EmptyString => EmptyString
  | String c rest =>
      match skip with
      | S k => replace_from old new k rest
      | O =>
          if String.prefix old s
          then new ++ replace_from old new (String.length old - 1) rest
          else String c (replace_from old new 0 rest)
      end
  end.

Definition str_replace (old new s : string) : string :=
  replace_from old new 0 s.

Definition exn_map_msg (f : string -> string) (e : exn) : exn :=
  match e with
  | ValueError m => ValueError (f m)
  | TypeError m => TypeError (f m)
  | IndexError m => IndexError (f m)
  | AttributeError m => AttributeError (f m)
  | AssertionError => AssertionError
  | RecursionError => RecursionError
  | SystemError => SystemError
  end.

(** [with rewrite_exception(old_name, new_name): ...] re-raises the same
    exception with [old_name] replaced in its message. *)
Definition rewrite_exception {A} (old_name new_name : string) (r : result A)
  : result A :=
  match r with
  | Ok a => Ok a
  | Err e => Err (exn_map_msg (str_replace old_name new_name) e)
  end.

Section ExtensionModule.
Context `{Collaborators}.

(** *** The generic [Index] base *)

(** Modelled from the spec: the [Index] constructor of the generic base
    (pandas/core/indexes/base.py, another module), "non-index results are
    promoted to the most specific matching Index variant based on the
    result's dtype".  The data is attached as it is. *)
Definition Index_new (data : Arr) (name : Name) : M loc :=
  alloc {| ob_type := _dtype_to_subclass (arr_dtype data);
           _data := data; _name := name; _cache := ∅ |}.

Definition name_or (name inherited : Name) : Name :=
  match name with
  | Some n => Some n
  | None => inherited
  end.

(** Modelled from the spec: [Index(data, name=name)] on an arbitrary value:
    an index or series gives its values (and its name when none is passed),
    anything else goes through the collaborator that coerces it into array
    data. *)
Definition Index_ctor (data : PyVal) (name : Name) : M loc :=
  match data with
  | VIndex l => o <- deref l;; Index_new (_data o) (name_or name (_name o))
  | VSeries values n => Index_new values (name_or name n)
  | VArray a => Index_new a name
  | other => a <- lift (sanitize_array other);; Index_new a name
  end.

(** Modelled from the spec: [Index.copy] of the generic base, "a shallow
    copy": a new object of the same class over the same data and name. *)
Definition Index_copy (self : loc) : M loc :=
  o <- deref self;;
  alloc {| ob_type := ob_type o; _data := _data o; _name := _name o;
           _cache := ∅ |}.

(** Modelled from the spec: [Index.is_] of the generic base, the "identity
    fast-path ([true] if same underlying object)". *)
Definition is_ (self : loc) (other : PyVal) : bool :=
  match other with
  | VIndex l => bool_decide (self = l)
  | _ => false
  end.

(** Modelled from the spec: [Index.astype] of the generic base, whose no-op
    branch the spec gives ("returns self or a shallow copy per [copy] if
    [dtype] equals current dtype"); the cast itself is a collaborator. *)
Definition Index_astype (self : loc) (dtype : Dtype) (copy : bool) : M loc :=
  o <- deref self;;
  if is_dtype_equal (arr_dtype (_data o)) dtype then
    if negb copy then ret self else Index_copy self
  else
    new_values <- lift (Index_astype_values o dtype copy);;
    Index_new new_values (_name o).

(** Modelled from the spec: [Index.insert] of the generic base, on which
    the retry of [ExtensionIndex.insert] lands after a cast to a dtype
    without backing array: a new index over the widened data. *)
Definition Index_insert (self : loc) (loc : Z) (item : Scalar) : M Py.loc :=
  o <- deref self;;
  new_values <- lift (Index_insert_values o loc item);;
  Index_new new_values (_name o).

(** The operand of a name lookup: the name of an index or series, nothing
    for any other value. *)
Definition operand_name (v : PyVal) : M (option Name) :=
  match v with
  | VIndex l => o <- deref l;; ret (Some (_name o))
  | VSeries _ n => ret (Some n)
  | _ => ret None
  end.

(** Modelled from the spec: [get_op_result_name] of pandas/core/ops
    (another module): "if both operands are named indexes/series and their
    names agree, keep that name; if they disagree or either is unnamed/not
    an index, result name is unset". *)
Definition reconcile_names (left : Name) (right : option Name) : Name :=
  match left, right with
  | Some a, Some (Some b) => if bool_decide (a = b) then Some a else None
  | _, _ => None
  end.

Definition get_op_result_name (left : loc) (right : PyVal) : M Name :=
  o <- deref left;;
  r <- operand_name right;;
  ret (reconcile_names (_name o) r).

(** [result.name = res_name] *)
Definition set_name (l : loc) (name : Name) : M unit :=
  o <- deref l;;
  store l {| ob_type := ob_type o; _data := _data o; _name := name;
             _cache := _cache o |}.

(** *** Operator wrappers *)

(** The attribute lookup [obj._data] on an index of any class: on an
    instance of a class without the attribute it raises AttributeError (the
    [_data] field of the model then only stands for the values the dtype of
    the index is read from). *)
Definition getattr_data (o : IndexObj) : result Arr :=
  if has_data_attribute (ob_type o) then Ok (_data o)
  else Err (AttributeError ("'" ++ tp_name (ob_type o)
                            ++ "' object has no attribute '_data'")).

(** [_maybe_unwrap_index]: an index operand is replaced by [obj._data]. *)
Definition _maybe_unwrap_index (obj : PyVal) : M PyVal :=
  match obj with
  | VIndex l => o <- deref l;; data <- lift (getattr_data o);; ret (VArray data)
  | _ => ret obj
  end.

(** [_make_wrapped_comparison_op(opname)]: a series operand gives its
    values, an index operand its data, and the comparison of the backing
    array is called on what is left. *)
Definition _make_wrapped_comparison_op (opname : string)
    (self : loc) (other : PyVal) : M PyVal :=
  let other := match other with
               | VSeries values _ => VArray values
               | _ => other
               end in
  other <- _maybe_unwrap_index other;;
  o <- deref self;;
  match ea_getattr (_data o) opname with
  | None => raise (AttributeError opname)
  | Some op => lift (op other)
  end.

(** The test opening the arithmetic wrapper:
    [isinstance(other, Index) and is_object_dtype(other.dtype)
     and type(other) is not Index]. *)
Definition is_object_index_subclass (other : PyVal) : M bool :=
  match other with
  | VIndex l =>
      o <- deref l;;
      ret (is_object_dtype (arr_dtype (_data o))
           && negb (bool_decide (tp_name (ob_type o) = "Index")))
  | _ => ret false
  end.

(** [_wrap_arithmetic_op(self, other, result)] *)
Fixpoint _wrap_arithmetic_op (self : loc) (other result : PyVal)
    {struct result} : M PyVal :=
  match result with
  | VNotImplemented => ret VNotImplemented
  | VTuple xs =>
      match xs with
      | [r0; r1] =>
          w0 <- _wrap_arithmetic_op self other r0;;
          w1 <- _wrap_arithmetic_op self other r1;;
          ret (VTuple [w0; w1])
      | _ => raise AssertionError
      end
  | _ =>
      l <- match result with
           | VIndex l => ret l
           | _ => Index_ctor result None
           end;;
      res_name <- get_op_result_name self other;;
      set_name l res_name;;;
      ret (VIndex l)
  end.

(** [_make_wrapped_arith_op(opname)] *)
Definition _make_wrapped_arith_op (opname : string)
    (self : loc) (other : PyVal) : M PyVal :=
  defer <- is_object_index_subclass other;;
  if defer then ret VNotImplemented
  else
    o <- deref self;;
    match ea_getattr (_data o) opname with
    | None =>
        raise (TypeError ("cannot perform " ++ opname
                          ++ " with this index type: " ++ tp_name (ob_type o)))
    | Some meth =>
        unwrapped <- _maybe_unwrap_index other;;
        result <- lift (meth unwrapped);;
        _wrap_arithmetic_op self other result
    end.

Definition comparison_ops : list string :=
  ["__eq__"; "__ne__"; "__lt__"; "__gt__"; "__le__"; "__ge__"].

Definition arith_ops : list string :=
  ["__add__"; "__sub__"; "__radd__"; "__rsub__"; "__pow__"; "__rpow__";
   "__mul__"; "__rmul__"; "__floordiv__"; "__rfloordiv__"; "__mod__";
   "__rmod__"; "__divmod__"; "__rdivmod__"; "__truediv__"; "__rtruediv__"].


(** *** ExtensionIndex *)

(** [ExtensionIndex._simple_new(cls, array, name)] *)
Definition _simple_new (cls : PyType) (array : Arr) (name : Name) : M loc :=
  match tp_data_cls cls with
  | None => raise (AttributeError "_data_cls")
  | Some data_cls =>
      if issubclass (arr_type array) data_cls
      then alloc {| ob_type := cls; _data := array; _name := name;
                    _cache := ∅ |}
      else raise AssertionError
  end.

(** [ExtensionIndex.delete(self, loc)] *)
Definition delete (self : loc) (loc : IntOrSeq) : M Py.loc :=
  o <- deref self;;
  arr <- lift (ea_delete (_data o) loc);;
  _simple_new (ob_type o) arr (_name o).

(** [ExtensionIndex.repeat(self, repeats, axis=None)] *)
Definition repeat (self : loc) (repeats : IntOrSeq) (axis : option Z)
  : M loc :=
  lift (validate_repeat axis);;;
  o <- deref self;;
  result <- lift (ea_repeat (_data o) repeats axis);;
  _simple_new (ob_type o) result (_name o).

(** [ExtensionIndex.astype(self, dtype, copy=True)]; [self.dtype] is the
    dtype of [self._data]. *)
Definition astype (self : loc) (dtype : Dtype) (copy : bool) : M loc :=
  let dtype := pandas_dtype dtype in
  o <- deref self;;
  if is_dtype_equal (arr_dtype (_data o)) dtype then
    if negb copy then ret self else Index_copy self
  else if is_np_dtype (arr_dtype (_data o))
          && is_np_dtype dtype
          && bool_decide (dtype_kind dtype = Some "M")
          && negb (bool_decide (dtype = Np (np_datetime64 unit_ns)))
  then raise (TypeError ("Cannot cast " ++ tp_name (ob_type o) ++ " to dtype"))
  else
    new_values <- lift (rewrite_exception (tp_name (arr_type (_data o)))
                          (tp_name (ob_type o))
                          (ea_astype (_data o) dtype copy));;
    Index_new new_values (_name o).

(** The classes whose instances run the methods of this module. *)
Definition is_extension_index (C : PyType) : bool :=
  issubclass C "ExtensionIndex".

(** [ExtensionIndex.insert(self, loc, item)].  [depth] is the room left on
    the interpreter's call stack: the retry on the cast copy is a call of
    the [insert] of whatever class the cast produced, this method again
    when that class is an [ExtensionIndex]. *)
Fixpoint insert (depth : nat) (self : loc) (loc : Z) (item : Scalar)
  : M Py.loc :=
  match depth with
  | O => raise RecursionError
  | S depth' =>
      o <- deref self;;
      match ea_insert (_data o) loc item with
      | Ok result => _simple_new (ob_type o) result (_name o)
      | Err (ValueError _) | Err (TypeError _) =>
          dtype <- lift (_find_common_type_compat o item);;
          cast <- astype self dtype true;;
          c <- deref cast;;
          if is_extension_index (ob_type c)
          then insert depth' cast loc item
          else Index_insert cast loc item
      | Err e => raise e
      end
  end.

(** [ExtensionIndex._validate_fill_value(self, value)] *)
Definition _validate_fill_value (self : loc) (value : Scalar) : M Scalar :=
  o <- deref self;;
  lift (ea_validate_setitem_value (_data o) value).

(** [ExtensionIndex.equals(self, other)] *)
Definition equals (self : loc) (other : PyVal) : M bool :=
  if is_ self other then ret true
  else
    match other with
    | VIndex l =>
        o <- deref self;;
        p <- deref l;;
        if issubclass (ob_type p) (tp_name (ob_type o))
        then ret (ea_equals (_data o) (_data p))
        else ret false
    | _ => ret false
    end.

End ExtensionModule.

(** ** Attribute delegation *)

(** What [getattr(delegate, name)] can find on an array class: a property
    (or a getset descriptor of a compiled class), a plain attribute, or a
    callable. *)
Inductive Attr :=
| AttrProperty (doc : string) (fget : Arr -> result PyVal)
    (fset : Arr -> PyVal -> result Arr)
| AttrValue (v : PyVal)
| AttrCallable (doc : string)
    (call : Arr -> list PyVal -> gmap string PyVal -> result PyVal).

(** What [inherit_from_data] pins on the index class. *)
Inductive Member :=
| CacheReadonly (name doc : string) (func : loc -> M PyVal)
| Property (name doc : string) (fget : loc -> M PyVal)
    (fset : loc -> PyVal -> M unit)
| Plain (v : PyVal)
| Method (name doc : string)
    (call : loc -> list PyVal -> gmap string PyVal -> M PyVal).

Section Delegation.
Context `{Collaborators}.

(** The [if wrap:] block shared by [fget] and [method]. *)
Definition wrap_inherited (self : loc) (result : PyVal) : M PyVal :=
  o <- deref self;;
  match result with
  | VArray a =>
      if issubclass (arr_type a) (tp_name (arr_type (_data o)))
      then l <- _simple_new (ob_type o) a (_name o);; ret (VIndex l)
      else l <- Index_ctor result (_name o);; ret (VIndex l)
  | VDataFrame columns _ => ret (VDataFrame columns (Some self))
  | _ => l <- Index_ctor result (_name o);; ret (VIndex l)
  end.

(** [inherit_from_data(name, delegate, cache=False, wrap=False)] *)
Definition inherit_from_data (name : string) (delegate : string -> option Attr)
    (cache wrap : bool) : result Member :=
  match delegate name with
  | None => Err (AttributeError name)
  | Some (AttrProperty doc getter setter) =>
      if cache then
        Ok (CacheReadonly name doc
              (fun self => o <- deref self;; lift (getter (_data o))))
      else
        Ok (Property name doc
              (fun self =>
                 o <- deref self;;
                 result <- lift (getter (_data o));;
                 if wrap then wrap_inherited self result else ret result)
              (fun self value =>
                 o <- deref self;;
                 a <- lift (setter (_data o) value);;
                 store self {| ob_type := ob_type o; _data := a;
                               _name := _name o; _cache := _cache o |}))
  | Some (AttrValue v) => Ok (Plain v)
  | Some (AttrCallable doc attr) =>
      Ok (Method name doc
            (fun self args kwargs =>
               o <- deref self;;
               if bool_decide (is_Some (kwargs !! "inplace"))
               then raise (ValueError ("cannot use inplace with "
                                       ++ tp_name (ob_type o)))
               else
                 result <- lift (attr (_data o) args kwargs);;
                 if wrap then wrap_inherited self result else ret result))
  end.

(** [inherit_names(names, delegate, cache, wrap)(cls)]: the class decorator,
    acting on the attribute dictionary of the class. *)
Fixpoint inherit_names (names : list string) (delegate : string -> option Attr)
    (cache wrap : bool) (cls : gmap string Member)
  : result (gmap string Member) :=
  match names with
  | [] => Ok cls
  | name :: rest =>
      match inherit_from_data name delegate cache wrap with
      | Ok meth => inherit_names rest delegate cache wrap (<[name := meth]> cls)
      | Err e => Err e
      end
  end.

End Delegation.

(** ** Contracts of the collaborators *)

(** The position an insert lands on ([validate_insert_loc]): a negative
    [loc] counts from the end, and the result must lie in [0, n]. *)
Definition insert_position (loc : Z) (n : nat) : option nat :=
  let p := (if loc <? 0 then loc + Z.of_nat n else loc)%Z in
  if ((0 <=? p) && (p <=? Z.of_nat n))%Z then Some (Z.to_nat p) else None.

Definition insert_at (p : nat) (x : Scalar) (l : list Scalar) : list Scalar :=
  take p l ++ x :: drop p l.

Definition with_values (a : Arr) (vs : list Scalar) : Arr :=
  mkArr (arr_type a) (arr_dtype a) vs.

(** What the module relies on from the backing arrays and the base class
    when a property speaks about the content of a result. *)
Class Contracts `{Collaborators} := {
  insert_sound : forall a loc item a',
    ea_insert a loc item = Ok a' ->
    exists p, insert_position loc (length (arr_values a)) = Some p
              /\ a' = with_values a (insert_at p item (arr_values a));
  insert_accepts : forall a loc item p,
    ea_validate_setitem_value a item = Ok item ->
    insert_position loc (length (arr_values a)) = Some p ->
    ea_insert a loc item = Ok (with_values a (insert_at p item (arr_values a)));
  validate_by_dtype : forall a b item,
    arr_type a = arr_type b -> arr_dtype a = arr_dtype b ->
    ea_validate_setitem_value a item = ea_validate_setitem_value b item;
  delete_at : forall a (p : nat),
    p < length (arr_values a) ->
    ea_delete a (One (Z.of_nat p))
    = Ok (with_values a (base.delete p (arr_values a)));
  equals_refl : forall a, ea_equals a a = true
}.

(** The invariant [_simple_new] asserts: the data of an index is an
    instance of the array class its class pins. *)
Definition index_ok (o : IndexObj) : Prop :=
  exists data_cls, tp_data_cls (ob_type o) = Some data_cls
                   /\ issubclass (arr_type (_data o)) data_cls = true.

(** ** A reference implementation of the collaborators *)

Module Reference.

Definition Index_t := mkType "Index" [] None.
Definition MultiIndex_t := mkType "MultiIndex" ["Index"] None.

Definition extension_bases : list string := ["ExtensionIndex"; "Index"].
Definition ndbacked_bases : list string :=
  "NDArrayBackedExtensionIndex" :: extension_bases.

Definition DatetimeIndex_t :=
  mkType "DatetimeIndex" ndbacked_bases (Some "DatetimeArray").
Definition TimedeltaIndex_t :=
  mkType "TimedeltaIndex" ndbacked_bases (Some "TimedeltaArray").
Definition PeriodIndex_t :=
  mkType "PeriodIndex" ndbacked_bases (Some "PeriodArray").
Definition CategoricalIndex_t :=
  mkType "CategoricalIndex" ndbacked_bases (Some "Categorical").
Definition IntervalIndex_t :=
  mkType "IntervalIndex" extension_bases (Some "IntervalArray").

Definition array_bases : list string :=
  ["NDArrayBackedExtensionArray"; "ExtensionArray"].
Definition ndarray_t := mkType "ndarray" [] None.
Definition DatetimeArray_t := mkType "DatetimeArray" array_bases None.
Definition TimedeltaArray_t := mkType "TimedeltaArray" array_bases None.
Definition PeriodArray_t := mkType "PeriodArray" array_bases None.
Definition Categorical_t := mkType "Categorical" array_bases None.
Definition IntervalArray_t := mkType "IntervalArray" ["ExtensionArray"] None.

(** The scalars an array takes without a change of dtype. *)
Definition accepts (a : Arr) (x : Scalar) : bool :=
  if bool_decide (arr_type a = DatetimeArray_t) then
    match x with STimestamp _ | SNaT => true | _ => false end
  else if bool_decide (arr_type a = TimedeltaArray_t) then
    match x with STimedelta _ | SNaT => true | _ => false end
  else if bool_decide (arr_type a = PeriodArray_t) then
    match x with SPeriod _ | SNaT => true | _ => false end
  else if bool_decide (arr_type a = IntervalArray_t) then
    match x with SInterval _ _ => true | _ => false end
  else if bool_decide (arr_type a = Categorical_t) then
    match arr_dtype a with
    | CategoricalDtype categories => bool_decide (x ∈ categories)
    | _ => false
    end
  else
    match arr_dtype a, x with
    | Np np_object, _ => true
    | Np np_int64, SInt _ => true
    | Np np_bool, SBool _ => true
    | Np (np_datetime64 _), (STimestamp _ | SNaT) => true
    | Np (np_timedelta64 _), (STimedelta _ | SNaT) => true
    | _, _ => false
    end.

Definition validate_setitem_value (a : Arr) (x : Scalar) : result Scalar :=
  if accepts a x then Ok x
  else Err (TypeError ("value is not valid for " ++ tp_name (arr_type a))).

(** [IntervalArray.insert] validates the item before it touches the
    position; the arrays over a single buffer validate the position first. *)
Definition insert (a : Arr) (loc : Z) (item : Scalar) : result Arr :=
  let n := length (arr_values a) in
  if bool_decide (arr_type a = IntervalArray_t) then
    match validate_setitem_value a item with
    | Err e => Err e
    | Ok x =>
        match insert_position loc n with
        | Some p => Ok (with_values a (insert_at p x (arr_values a)))
        | None => Err (IndexError "index out of bounds")
        end
    end
  else
    match insert_position loc n with
    | None => Err (IndexError "loc must be an integer within the length")
    | Some p =>
        match validate_setitem_value a item with
        | Err e => Err e
        | Ok x => Ok (with_values a (insert_at p x (arr_values a)))
        end
    end.

(** Positions of [delete]: negative ones count from the end, all must lie
    in [0, n). *)
Definition delete_position (n : nat) (z : Z) : option nat :=
  let p := (if z <? 0 then z + Z.of_nat n else z)%Z in
  if ((0 <=? p) && (p <? Z.of_nat n))%Z then Some (Z.to_nat p) else None.

Fixpoint drop_positions (ps : list nat) (i : nat) (l : list Scalar)
  : list Scalar :=
  match l with
  | [] => []
  | x :: rest =>
      if bool_decide (i ∈ ps) then drop_positions ps (S i) rest
      else x :: drop_positions ps (S i) rest
  end.

Definition delete (a : Arr) (loc : IntOrSeq) : result Arr :=
  let n := length (arr_values a) in
  match loc with
  | One z =>
      match delete_position n z with
      | Some p => Ok (with_values a (base.delete p (arr_values a)))
      | None => Err (IndexError "index out of bounds")
      end
  | Many zs =>
      match mapM (delete_position n) zs with
      | Some ps => Ok (with_values a (drop_positions ps 0 (arr_values a)))
      | None => Err (IndexError "index out of bounds")
      end
  end.

Definition repeat_counts (n : nat) (repeats : IntOrSeq) : option (list nat) :=
  match repeats with
  | One k => if (k <? 0)%Z then None else Some (replicate n (Z.to_nat k))
  | Many ks =>
      if bool_decide (length ks = n) && forallb (fun k => (0 <=? k)%Z) ks
      then Some (map Z.to_nat ks) else None
  end.

Definition repeat (a : Arr) (repeats : IntOrSeq) (axis : option Z)
  : result Arr :=
  match repeat_counts (length (arr_values a)) repeats with
  | Some ks =>
      Ok (with_values a (concat (zip_with replicate ks (arr_values a))))
  | None => Err (ValueError "operands could not be broadcast together")
  end.

Definition period_start (x : Scalar) : Scalar :=
  match x with
  | SPeriod ordinal => STimestamp (ordinal * 86400000000000)%Z
  | other => other
  end.

Definition recode (categories : list Scalar) (x : Scalar) : Scalar :=
  if bool_decide (x ∈ categories) then x else SNaT.

Definition astype (a : Arr) (dtype : Dtype) (copy : bool) : result Arr :=
  if bool_decide (arr_dtype a = dtype) then Ok a
  else
    match dtype with
    | Np np_object => Ok (mkArr ndarray_t dtype (arr_values a))
    | Np (np_datetime64 _) =>
        if bool_decide (arr_type a = DatetimeArray_t)
        then Ok (mkArr ndarray_t dtype (arr_values a))
        else if bool_decide (arr_type a = PeriodArray_t)
        then Ok (mkArr ndarray_t dtype (map period_start (arr_values a)))
        else Err (TypeError ("Cannot cast " ++ tp_name (arr_type a)
                             ++ " to dtype"))
    | CategoricalDtype categories =>
        Ok (mkArr Categorical_t dtype (map (recode categories) (arr_values a)))
    | _ => Err (TypeError ("Cannot cast " ++ tp_name (arr_type a)
                           ++ " to dtype"))
    end.

Definition equals (a b : Arr) : bool := bool_decide (a = b).

(** The [categories] property of [Categorical]: reading gives the
    categories of the dtype, assigning renames them position by position. *)
Definition get_categories (a : Arr) : result PyVal :=
  match arr_dtype a with
  | CategoricalDtype categories => Ok (VTuple (map VScalar categories))
  | _ => Err (AttributeError "categories")
  end.

Fixpoint rename_category (old new : list Scalar) (x : Scalar) : Scalar :=
  match old, new with
  | o :: old', n :: new' =>
      if bool_decide (x = o) then n else rename_category old' new' x
  | _, _ => x
  end.

Definition scalars_of (v : PyVal) : option (list Scalar) :=
  match v with
  | VTuple xs =>
      mapM (fun x => match x with VScalar s => Some s | _ => None end) xs
  | _ => None
  end.

Definition set_categories (a : Arr) (value : PyVal) : result Arr :=
  match arr_dtype a, scalars_of value with
  | CategoricalDtype old, Some new =>
      if bool_decide (length new = length old)
      then Ok (mkArr (arr_type a) (CategoricalDtype new)
                 (map (rename_category old new) (arr_values a)))
      else Err (ValueError "new categories need to have the same number of items as the old categories!")
  | _, _ => Err (TypeError "categories must be list-like")
  end.

(** Element-wise operators of the arrays that have them. *)
Definition scalar_add (x y : Scalar) : Scalar :=
  match x, y with
  | STimestamp a, STimedelta b => STimestamp (a + b)
  | STimedelta a, STimestamp b => STimestamp (a + b)
  | STimedelta a, STimedelta b => STimedelta (a + b)
  | SPeriod a, SInt b => SPeriod (a + b)
  | SInt a, SInt b => SInt (a + b)
  | _, _ => SNaT
  end.

Definition scalar_sub (x y : Scalar) : Scalar :=
  match x, y with
  | STimestamp a, STimedelta b => STimestamp (a - b)
  | STimestamp a, STimestamp b => STimedelta (a - b)
  | STimedelta a, STimedelta b => STimedelta (a - b)
  | SPeriod a, SInt b => SPeriod (a - b)
  | SInt a, SInt b => SInt (a - b)
  | _, _ => SNaT
  end.

Definition scalar_key (x : Scalar) : option Z :=
  match x with
  | SInt z | STimestamp z | STimedelta z | SPeriod z => Some z
  | _ => None
  end.

Definition scalar_compare (opname : string) (x y : Scalar) : Scalar :=
  if bool_decide (opname = "__eq__") then SBool (bool_decide (x = y))
  else if bool_decide (opname = "__ne__") then SBool (negb (bool_decide (x = y)))
  else
    match scalar_key x, scalar_key y with
    | Some a, Some b =>
        SBool (if bool_decide (opname = "__lt__") then (a <? b)%Z
               else if bool_decide (opname = "__gt__") then (b <? a)%Z
               else if bool_decide (opname = "__le__") then (a <=? b)%Z
               else (b <=? a)%Z)
    | _, _ => SBool false
    end.

Definition broadcast (f : Scalar -> Scalar -> Scalar) (a : Arr)
    (other : PyVal) : option (result (list Scalar)) :=
  match other with
  | VArray b =>
      if bool_decide (length (arr_values a) = length (arr_values b))
      then Some (Ok (zip_with f (arr_values a) (arr_values b)))
      else Some (Err (ValueError "Lengths must match"))
  | VScalar y => Some (Ok (map (fun x => f x y) (arr_values a)))
  | _ => None
  end.

Definition comparison (opname : string) (a : Arr) (other : PyVal)
  : result PyVal :=
  match broadcast (scalar_compare opname) a other with
  | Some (Ok flags) => Ok (VArray (mkArr ndarray_t (Np np_bool) flags))
  | Some (Err e) => Err e
  | None => Ok VNotImplemented
  end.

Definition scalar_divmod (x y : Scalar) : Scalar * Scalar :=
  match x, y with
  | STimedelta a, STimedelta b =>
      if bool_decide (b = 0%Z) then (SNaT, SNaT)
      else (SInt (a / b), STimedelta (a mod b))
  | _, _ => (SNaT, SNaT)
  end.

Definition arithmetic (opname : string) (a : Arr) (other : PyVal)
  : result PyVal :=
  if bool_decide (opname ∈ ["__add__"; "__radd__"]) then
    match broadcast scalar_add a other with
    | Some (Ok vs) => Ok (VArray (with_values a vs))
    | Some (Err e) => Err e
    | None => Ok VNotImplemented
    end
  else if bool_decide (opname = "__sub__") then
    match broadcast scalar_sub a other with
    | Some (Ok vs) => Ok (VArray (with_values a vs))
    | Some (Err e) => Err e
    | None => Ok VNotImplemented
    end
  else if bool_decide (opname = "__divmod__") then
    match broadcast (fun x y => fst (scalar_divmod x y)) a other,
          broadcast (fun x y => snd (scalar_divmod x y)) a other with
    | Some (Ok qs), Some (Ok rs) =>
        Ok (VTuple [VArray (mkArr ndarray_t (Np np_int64) qs);
                    VArray (with_values a rs)])
    | Some (Err e), _ | _, Some (Err e) => Err e
    | _, _ => Ok VNotImplemented
    end
  else Ok VNotImplemented.

(** [Categorical] and [IntervalArray] define no arithmetic. *)
Definition getattr (a : Arr) (opname : string)
  : option (PyVal -> result PyVal) :=
  if bool_decide (opname ∈ comparison_ops) then Some (comparison opname a)
  else if bool_decide (opname ∈ arith_ops) then
    if bool_decide (arr_type a ∈ [Categorical_t; IntervalArray_t]) then None
    else Some (arithmetic opname a)
  else None.

(** The generic base.  The plain [Index] and the classes built on it keep
    their values in [_data]; a [MultiIndex] keeps levels and codes and has
    no such attribute. *)
Definition keeps_data_attribute (C : PyType) : bool :=
  negb (issubclass C "MultiIndex").

Definition find_common_type_compat (o : IndexObj) (item : Scalar)
  : result Dtype :=
  if accepts (_data o) item then Ok (arr_dtype (_data o))
  else Ok (Np np_object).

Definition dtype_to_subclass (d : Dtype) : PyType :=
  match d with
  | Np (np_datetime64 unit_ns) => DatetimeIndex_t
  | Np (np_timedelta64 unit_ns) => TimedeltaIndex_t
  | CategoricalDtype _ => CategoricalIndex_t
  | Ext name =>
      if String.prefix "period" name then PeriodIndex_t
      else if String.prefix "interval" name then IntervalIndex_t
      else if String.prefix "datetime64" name then DatetimeIndex_t
      else Index_t
  | _ => Index_t
  end.

Definition sanitize (v : PyVal) : result Arr :=
  Err (TypeError "Index(...) must be called with a collection of some kind").

Definition insert_values (o : IndexObj) (loc : Z) (item : Scalar)
  : result Arr :=
  match insert_position loc (length (arr_values (_data o))) with
  | None => Err (IndexError "index out of bounds")
  | Some p =>
      let vs := insert_at p item (arr_values (_data o)) in
      if accepts (_data o) item then Ok (with_values (_data o) vs)
      else Ok (mkArr ndarray_t (Np np_object) vs)
  end.

Definition astype_values (o : IndexObj) (dtype : Dtype) (copy : bool)
  : result Arr :=
  astype (_data o) dtype copy.

Definition validate_axis (axis : option Z) : result unit :=
  match axis with
  | None => Ok tt
  | Some _ =>
      Err (ValueError "the 'axis' parameter is not supported in the pandas implementation of repeat()")
  end.

Definition collaborators : Collaborators := {|
  ea_insert := insert;
  ea_delete := delete;
  ea_repeat := repeat;
  ea_astype := astype;
  ea_equals := equals;
  ea_validate_setitem_value := validate_setitem_value;
  ea_getattr := getattr;
  _find_common_type_compat := find_common_type_compat;
  _dtype_to_subclass := dtype_to_subclass;
  sanitize_array := sanitize;
  Index_insert_values := insert_values;
  Index_astype_values := astype_values;
  validate_repeat := validate_axis;
  has_data_attribute := keeps_data_attribute
|}.

End Reference.

(** Backing arrays whose cast of periods to a datetime64 dtype answers in
    nanoseconds whatever unit was asked for, the way [PeriodArray.astype]
    goes through [to_timestamp]; everything else is the reference
    implementation. *)
Module NanosecondCast.
Import Reference.

Definition astype (a : Arr) (dtype : Dtype) (copy : bool) : result Arr :=
  match dtype with
  | Np (np_datetime64 _) =>
      if bool_decide (arr_type a = PeriodArray_t)
      then Ok (mkArr DatetimeArray_t (Np (np_datetime64 unit_ns))
                 (map period_start (arr_values a)))
      else Reference.astype a dtype copy
  | _ => Reference.astype a dtype copy
  end.

Definition collaborators : Collaborators := {|
  ea_insert := insert;
  ea_delete := delete;
  ea_repeat := repeat;
  ea_astype := astype;
  ea_equals := equals;
  ea_validate_setitem_value := validate_setitem_value;
  ea_getattr := getattr;
  _find_common_type_compat := find_common_type_compat;
  _dtype_to_subclass := dtype_to_subclass;
  sanitize_array := sanitize;
  Index_insert_values := insert_values;
  Index_astype_values := astype_values;
  validate_repeat := validate_axis;
  has_data_attribute := keeps_data_attribute
|}.

End NanosecondCast.

(** ** Sample indexes *)

Module Sample.
Import Reference.

Definition M8ns : Dtype := Np (np_datetime64 unit_ns).
Definition m8ns : Dtype := Np (np_timedelta64 unit_ns).

Definition dates : Arr :=
  mkArr DatetimeArray_t M8ns [STimestamp 10; STimestamp 20; STimestamp 30].
Definition deltas : Arr :=
  mkArr TimedeltaArray_t m8ns [STimedelta 1; STimedelta 2; STimedelta 3].
Definition letters : Arr :=
  mkArr Categorical_t (CategoricalDtype [SStr "a"; SStr "b"])
        [SStr "a"; SStr "b"; SStr "a"].
Definition spans : Arr :=
  mkArr IntervalArray_t (Ext "interval[int64, right]") [SInterval 0 1].
Definition days : Arr :=
  mkArr PeriodArray_t (Ext "period[D]") [SPeriod 1; SPeriod 2].
Definition tuples : Arr :=
  mkArr ndarray_t (Np np_object) [SStr "a"; SStr "b"; SStr "c"].

Definition dti : IndexObj := mkIndex DatetimeIndex_t dates (Some "x") ∅.
Definition tdi_x : IndexObj := mkIndex TimedeltaIndex_t deltas (Some "x") ∅.
Definition tdi_y : IndexObj := mkIndex TimedeltaIndex_t deltas (Some "y") ∅.
Definition tdi_unnamed : IndexObj := mkIndex TimedeltaIndex_t deltas None ∅.
Definition ci : IndexObj := mkIndex CategoricalIndex_t letters (Some "x") ∅.
Definition ii : IndexObj := mkIndex IntervalIndex_t spans None ∅.
Definition pi : IndexObj := mkIndex PeriodIndex_t days None ∅.
Definition mi : IndexObj := mkIndex MultiIndex_t tuples None ∅.

(** A user-defined subclass of [DatetimeIndex] over the same data. *)
Definition MyDatetimeIndex_t :=
  mkType "MyDatetimeIndex" ("DatetimeIndex" :: ndbacked_bases)
         (Some "DatetimeArray").
Definition my_dti : IndexObj := mkIndex MyDatetimeIndex_t dates (Some "x") ∅.


Definition store0 : heap :=
  [dti; tdi_x; tdi_y; tdi_unnamed; ci; ii; pi; mi; my_dti].


(** Two attributes of the categorical array class, as a delegate exposes
    them: a callable and a property with a setter. *)
Definition categorical_methods (name : string) : option Attr :=
  if bool_decide (name = "remove_unused_categories")
  then Some (AttrCallable "Remove categories which are not used."
               (fun a _ _ => Ok (VArray a)))
  else if bool_decide (name = "categories")
  then Some (AttrProperty "The categories of this categorical."
               get_categories set_categories)
  else None.

End Sample.

(** ** Vocabulary of the properties *)

Definition outcome_heap {A} (r : outcome A) : heap :=
  match r with
  | Return _ h => h
  | Raise _ h => h
  end.

(** [r] is an instance that did not exist in [h], and every object of [h]
    is found unchanged in [h']. *)
Definition new_instance (h : heap) (r : loc) (h' : heap) : Prop :=
  h !! r = None /\ is_Some (h' !! r) /\ h `prefix_of` h'.

(** A computation that only ever adds objects to the store. *)
Definition extends_store {A} (c : M A) : Prop :=
  forall h : heap, h `prefix_of` outcome_heap (c h).

(** A computation whose result is an object it has added. *)
Definition allocates (c : M loc) : Prop :=
  forall (h : heap) r h', c h = Return r h' -> new_instance h r h'.

Definition values_of (o : IndexObj) : list Scalar := arr_values (_data o).

Definition dtype_of (o : IndexObj) : Dtype := arr_dtype (_data o).

(** The name an operand shows in store [h]: that of an index or series,
    none for any other value; undefined on a dangling reference. *)
Definition operand_name_in (h : heap) (v : PyVal) : option (option Name) :=
  match v with
  | VIndex l => (fun o => Some (_name o)) <$> h !! l
  | VSeries _ n => Some (Some n)
  | _ => Some None
  end.

Section Dispatch.
Context `{Collaborators}.

(** [x.astype(dtype, copy)] on an index of any class: the method of this
    module for an [ExtensionIndex], that of the base otherwise. *)
Definition astype_method (self : loc) (dtype : Dtype) (copy : bool) : M loc :=
  c <- deref self;;
  if is_extension_index (ob_type c) then astype self dtype copy
  else Index_astype self dtype copy.

(** [x.insert(loc, item)] on an index of any class, with [depth] frames
    left on the call stack. *)
Definition insert_method (depth : nat) (self : loc) (loc : Z) (item : Scalar)
  : M Py.loc :=
  c <- deref self;;
  if is_extension_index (ob_type c) then insert depth self loc item
  else Index_insert self loc item.

(** The retry that follows a ValueError or TypeError of the array in
    [insert]: hook, cast, and [insert] on the cast copy. *)
Definition retry_insert (depth : nat) (self : loc) (o : IndexObj)
    (loc : Z) (item : Scalar) : M Py.loc :=
  dtype <- lift (_find_common_type_compat o item);;
  cast <- astype self dtype true;;
  insert_method depth cast loc item.

(** An index takes an item: at every position in range its [insert]
    stores the item as it is -- the insert of the backing array for an
    [ExtensionIndex], whose data is of the class its class pins, the insert
    of the base for any other index. *)
Definition takes_item (co : IndexObj) (item : Scalar) : Prop :=
  forall (loc : Z) (p : nat),
    insert_position loc (length (values_of co)) = Some p ->
    if is_extension_index (ob_type co)
    then index_ok co
         /\ ea_insert (_data co) loc item
            = Ok (with_values (_data co) (insert_at p item (values_of co)))
    else exists new_values,
           Index_insert_values co loc item = Ok new_values
           /\ arr_values new_values = insert_at p item (values_of co).

(** What it means for [dtype] to be a common dtype of an index and an
    item, the answer expected of the hook [_find_common_type_compat] of the
    generic base: a type both the elements of the index and the item can be
    represented in, so that the index can be cast to it, element for
    element, and the cast index takes the item. *)
Definition common_dtype (o : IndexObj) (item : Scalar) (dtype : Dtype)
  : Prop :=
  forall (h : heap) (self : loc),
    h !! self = Some o ->
    exists cast h1 co,
      astype self dtype true h = Return cast h1
      /\ h1 !! cast = Some co
      /\ length (values_of co) = length (values_of o)
      /\ takes_item co item.

(** The indexes a wrapped arithmetic result consists of. *)
Definition wrapped_indexes (v : PyVal) : list loc :=
  match v with
  | VIndex l => [l]
  | VTuple [VIndex a; VIndex b] => [a; b]
  | _ => []
  end.

End Dispatch.

(** ** Engine targets and [map] *)

(** Further collaborators: the conversions between a backing array and its
    plain buffer, and the [map] of the generic base. *)
Class EngineCollaborators := {
  np_asarray : Arr -> result Arr;
  ea_ndarray : Arr -> result Arr;
  ea_from_sequence : PyType -> Arr -> Dtype -> result Arr;
  ea_from_backing_data : Arr -> Arr -> result Arr;
  Index_map : loc -> (PyVal -> M PyVal) -> M PyVal
}.

(** [try: c  except Exception: handler]; every exception of the model is
    an [Exception]. *)
Definition try_except {A} (c : M A) (handler : exn -> M A) : M A :=
  fun h => match c h with
           | Return a h' => Return a h'
           | Raise e h' => handler e h'
           end.

Module ExtensionIndex.
Section Methods.
Context `{Collaborators} `{EngineCollaborators}.

(** [ExtensionIndex._get_engine_target(self)] *)
Definition _get_engine_target (self : loc) : M Arr :=
  o <- deref self;;
  lift (np_asarray (_data o)).

(** [ExtensionIndex._from_join_target(self, result)] *)
Definition _from_join_target (self : loc) (result : Arr) : M Arr :=
  o <- deref self;;
  lift (ea_from_sequence (arr_type (_data o)) result (arr_dtype (_data o))).

(** [ExtensionIndex.map(self, mapper, na_action=None)].  The retry is a
    call of the [map] of whatever class the cast to object produced;
    [depth] is the room left on the call stack, as for [insert]. *)
Fixpoint map (depth : nat) (self : loc) (mapper : PyVal -> M PyVal)
    (na_action : option string) : M PyVal :=
  match depth with
  | O => raise RecursionError
  | S depth' =>
      try_except
        (result <- mapper (VIndex self);;
         result <- match result with
                   | VArray a =>
                       if issubclass (arr_type a) "ndarray"
                       then l <- Index_ctor result None;; ret (VIndex l)
                       else ret result
                   | _ => ret result
                   end;;
         match result with
         | VIndex _ => ret result
         | _ => raise (TypeError "The map function must return an Index object")
         end)
        (fun _ =>
           cast <- astype self (Np np_object) true;;
           c <- deref cast;;
           if is_extension_index (ob_type c)
           then map depth' cast mapper None
           else Index_map cast mapper)
  end.

End Methods.
End ExtensionIndex.

Module NDArrayBackedExtensionIndex.
Section Methods.
Context `{Collaborators} `{EngineCollaborators}.

(** [NDArrayBackedExtensionIndex._get_engine_target(self)] *)
Definition _get_engine_target (self : loc) : M Arr :=
  o <- deref self;;
  lift (ea_ndarray (_data o)).

(** [NDArrayBackedExtensionIndex._from_join_target(self, result)] *)
Definition _from_join_target (self : loc) (result : Arr) : M Arr :=
  o <- deref self;;
  buffer <- lift (ea_ndarray (_data o));;
  if bool_decide (arr_dtype result = arr_dtype buffer)
  then lift (ea_from_backing_data (_data o) result)
  else raise AssertionError.

End Methods.
End NDArrayBackedExtensionIndex.

Section EngineDispatch.
Context `{Collaborators} `{EngineCollaborators}.

(** [x._get_engine_target()] and [x._from_join_target(result)] as the
    method resolution order finds them: the overrides of
    [NDArrayBackedExtensionIndex] for its subclasses, the methods of
    [ExtensionIndex] otherwise. *)
Definition engine_target_method (self : loc) : M Arr :=
  c <- deref self;;
  if issubclass (ob_type c) "NDArrayBackedExtensionIndex"
  then NDArrayBackedExtensionIndex._get_engine_target self
  else ExtensionIndex._get_engine_target self.

Definition from_join_target_method (self : loc) (result : Arr) : M Arr :=
  c <- deref self;;
  if issubclass (ob_type c) "NDArrayBackedExtensionIndex"
  then NDArrayBackedExtensionIndex._from_join_target self result
  else ExtensionIndex._from_join_target self result.

(** The [except] branch of [ExtensionIndex.map]: the cast to object and the
    [map] of the class the cast produced, with [depth] frames left. *)
Definition map_retry (depth : nat) (self : loc) (mapper : PyVal -> M PyVal)
  : M PyVal :=
  cast <- astype self (Np np_object) true;;
  c <- deref cast;;
  if is_extension_index (ob_type c)
  then ExtensionIndex.map depth cast mapper None
  else Index_map cast mapper.

End EngineDispatch.

(** The reference implementation of the further collaborators. *)
Module ReferenceEngine.
Import Reference.

(** The buffer behind an array over a single buffer: the timestamps and
    timedeltas themselves, the ordinals of periods. *)
Definition ordinal_of (x : Scalar) : Scalar :=
  match x with
  | SPeriod ordinal => SInt ordinal
  | other => other
  end.

Definition period_of (x : Scalar) : Scalar :=
  match x with
  | SInt ordinal => SPeriod ordinal
  | other => other
  end.

Definition ndarray_of (a : Arr) : result Arr :=
  if bool_decide (arr_type a = DatetimeArray_t)
  then Ok (mkArr ndarray_t (Np (np_datetime64 unit_ns)) (arr_values a))
  else if bool_decide (arr_type a = TimedeltaArray_t)
  then Ok (mkArr ndarray_t (Np (np_timedelta64 unit_ns)) (arr_values a))
  else if bool_decide (arr_type a = PeriodArray_t)
  then Ok (mkArr ndarray_t (Np np_int64) (List.map ordinal_of (arr_values a)))
  else Err (AttributeError "_ndarray").

Definition from_backing_data (a buffer : Arr) : result Arr :=
  if bool_decide (arr_type a = PeriodArray_t)
  then Ok (with_values a (List.map period_of (arr_values buffer)))
  else Ok (with_values a (arr_values buffer)).

Definition asarray (a : Arr) : result Arr :=
  Ok (mkArr ndarray_t (Np np_object) (arr_values a)).

Definition from_sequence (cls : PyType) (values : Arr) (dtype : Dtype)
  : result Arr :=
  Ok (mkArr cls dtype (arr_values values)).

(** [Index.map] of the base: the mapper applied to each element in turn,
    the results collected in an object index of the same name. *)
Fixpoint map_elements (mapper : PyVal -> M PyVal) (xs : list Scalar)
  : M (list Scalar) :=
  match xs with
  | [] => ret []
  | x :: rest =>
      y <- mapper (VScalar x);;
      ys <- map_elements mapper rest;;
      match y with
      | VScalar s => ret (s :: ys)
      | _ => raise (TypeError "unsupported result of the mapper")
      end
  end.

Definition base_map (self : loc) (mapper : PyVal -> M PyVal) : M PyVal :=
  o <- deref self;;
  ys <- map_elements mapper (arr_values (_data o));;
  l <- alloc {| ob_type := Index_t;
                _data := mkArr ndarray_t (Np np_object) ys;
                _name := _name o; _cache := ∅ |};;
  ret (VIndex l).

Definition collaborators : EngineCollaborators := {|
  np_asarray := asarray;
  ea_ndarray := ndarray_of;
  ea_from_sequence := from_sequence;
  ea_from_backing_data := from_backing_data;
  Index_map := base_map
|}.

(** Sample mappers: one that shifts a timestamp and cannot handle a whole
    index, one that hands back the elements of the index it is given in an
    object buffer. *)
Definition shift_by_one (v : PyVal) : M PyVal :=
  match v with
  | VScalar (STimestamp ns) => ret (VScalar (STimestamp (ns + 1)))
  | _ => raise (TypeError "unsupported operand")
  end.

Definition to_buffer (v : PyVal) : M PyVal :=
  match v with
  | VIndex l =>
      o <- deref l;;
      ret (VArray (mkArr ndarray_t (Np np_object) (arr_values (_data o))))
  | other => ret other
  end.

End ReferenceEngine.

(** Every object of [h] is found in [h'] with its class, data and cache;
    only its name may differ. *)
Definition keeps_data (h h' : heap) : Prop :=
  forall l lo, h !! l = Some lo ->
    exists lo', h' !! l = Some lo'
                /\ ob_type lo' = ob_type lo /\ _data lo' = _data lo
                /\ _cache lo' = _cache lo.

(** A computation that, returning or raising, leaves class, data and cache
    of every object as they were. *)
Definition data_preserving {A} (c : M A) : Prop :=
  forall h : heap, keeps_data h (outcome_heap (c h)).

(** * Properties *)

Section Basics.

Lemma bind_Return {A B} (c : M A) (k : A -> M B) h a h' :
  c h = Return a h' -> bind c k h = k a h'.
Proof. unfold bind. intros ->. reflexivity. Qed.

Lemma bind_inv_Return {A B} (c : M A) (k : A -> M B) h b h2 :
  bind c k h = Return b h2 ->
  exists a h1, c h = Return a h1 /\ k a h1 = Return b h2.
Proof.
  unfold bind. destruct (c h) as [a h1|e h1]; [eauto | discriminate].
Qed.


Lemma deref_Some h l o : h !! l = Some o -> deref l h = Return o h.
Proof. unfold deref. intros ->. reflexivity. Qed.

Lemma deref_inv h l o h' :
  deref l h = Return o h' -> h' = h /\ h !! l = Some o.
Proof.
  unfold deref. destruct (h !! l); [|discriminate].
  intros [= -> ->]. auto.
Qed.

Lemma lift_inv {A} (r : result A) h a h' :
  lift r h = Return a h' -> r = Ok a /\ h' = h.
Proof. destruct r; simpl; unfold ret, raise; intros [= ]; subst; auto. Qed.

Lemma alloc_new (h : heap) (o : IndexObj) : new_instance h (length h) (h ++ [o]).
Proof.
  repeat split.
  - apply lookup_ge_None_2. lia.
  - exists o. rewrite lookup_app_r by lia.
    replace (length h - length h) with 0 by lia. reflexivity.
  - apply prefix_app_r. reflexivity.
Qed.

Lemma alloc_lookup (h : heap) (o : IndexObj) :
  (h ++ [o]) !! length h = Some o.
Proof.
  rewrite lookup_app_r by lia.
  replace (length h - length h) with 0 by lia. reflexivity.
Qed.

Lemma new_instance_extend (h : heap) r h1 h2 :
  new_instance h1 r h2 -> h `prefix_of` h1 -> new_instance h r h2.
Proof.
  intros (Hn & Hs & Hp) Hpre. repeat split; [|done|by etrans].
  destruct (h !! r) as [o|] eqn:E; [|done].
  rewrite (prefix_lookup_Some _ _ _ _ E Hpre) in Hn. done.
Qed.


End Basics.

(** ** Operators *)

Section Operators.
Context `{Collaborators}.





(** C7, as the code has it: when the backing array has no attribute of
    the operator's name and the right-hand operand is not an object-dtype
    index of a proper subclass of [Index], the operator raises a TypeError
    whose message ends in the name of the index class, and the store is
    left as it is; when the operand is such an index, the operator returns
    NotImplemented instead, the missing attribute notwithstanding. *)
Theorem arith_unsupported_raises_TypeError :
  forall (h : heap) (self : loc) (other : PyVal) (o : IndexObj) opname,
    h !! self = Some o ->
    ea_getattr (_data o) opname = None ->
    (is_object_index_subclass other h = Return false h ->
     _make_wrapped_arith_op opname self other h
     = Raise (TypeError ("cannot perform " ++ opname
                         ++ " with this index type: "
                         ++ tp_name (ob_type o))) h)
    /\
    (is_object_index_subclass other h = Return true h ->
     _make_wrapped_arith_op opname self other h = Return VNotImplemented h).
Proof.
  intros h self other o opname Hself Hattr.
  unfold _make_wrapped_arith_op. split; intros Hdefer.
  - rewrite (bind_Return _ _ _ _ _ Hdefer).
    rewrite (bind_Return _ _ _ _ _ (deref_Some _ _ _ Hself)).
    rewrite Hattr. reflexivity.
  - rewrite (bind_Return _ _ _ _ _ Hdefer). reflexivity.
Qed.

End Operators.



(** Counterexample to C7 as stated: on a categorical index, whose backing
    array has no [__add__], adding a MultiIndex returns NotImplemented
    instead of raising. *)
Lemma arith_unsupported_counterexample :
  ~ (forall (h : heap) (self : loc) (other : PyVal) (o : IndexObj) opname,
       h !! self = Some o ->
       opname ∈ arith_ops ->
       @ea_getattr Reference.collaborators (_data o) opname = None ->
       exists msg,
         @_make_wrapped_arith_op Reference.collaborators opname self other h
         = Raise (TypeError msg) h).
Proof.
  intros claim.
  destruct (claim Sample.store0 4 (VIndex 7) Sample.ci "__add__")
    as [msg Hmsg]; [reflexivity | | reflexivity | ].
  - unfold arith_ops. apply list_elem_of_here.
  - vm_compute in Hmsg. discriminate Hmsg.
Qed.

(** Witness of C7: a categorical index plus a timedelta index. *)
Lemma arith_unsupported_raises_TypeError_witness :
  @_make_wrapped_arith_op Reference.collaborators "__add__" 4 (VIndex 1)
    Sample.store0
  = Raise (TypeError "cannot perform __add__ with this index type: CategoricalIndex")
      Sample.store0.
Proof.
  apply (@arith_unsupported_raises_TypeError Reference.collaborators
           Sample.store0 4 (VIndex 1) Sample.ci "__add__");
    reflexivity.
Defined.

(** ** Delegated methods *)

Section DelegatedMethods.
Context `{Collaborators}.

Lemma inherit_names_keeps names delegate cache wrap :
  forall (cls cls' : gmap string Member) name meth,
    inherit_names names delegate cache wrap cls = Ok cls' ->
    inherit_from_data name delegate cache wrap = Ok meth ->
    name ∈ names \/ cls !! name = Some meth ->
    cls' !! name = Some meth.
Proof.
  induction names as [|first rest IH]; intros cls cls' name meth Hrun Hmeth Hin.
  - simpl in Hrun. injection Hrun as <-.
    destruct Hin as [Hin|Hin]; [|exact Hin].
    apply elem_of_nil in Hin. destruct Hin.
  - simpl in Hrun.
    destruct (inherit_from_data first delegate cache wrap) as [m|e] eqn:Hfirst;
      [|discriminate].
    apply (IH _ _ _ _ Hrun Hmeth).
    destruct (decide (name = first)) as [->|Hne].
    + right. rewrite lookup_insert_eq. congruence.
    + destruct Hin as [Hin|Hin].
      * apply elem_of_cons in Hin. destruct Hin as [?|Hin]; [done|by left].
      * right. by rewrite lookup_insert_ne.
Qed.

(** C10, as the code has it: a class decorated by [inherit_names] holds,
    under every listed name that is a callable of the array class, a method
    that raises ValueError("cannot use inplace with <index class>")
    whenever it is called with an [inplace] keyword.  The outcome is the
    same for every array callable, positional and further keyword
    arguments, and the store is left as it is: the array method is not
    reached.  A property of the array class inherited without caching comes
    with a setter, and that setter does write through: it replaces the data
    of the index it is called on by what the array setter produces. *)
Theorem inherited_method_rejects_inplace :
  forall names delegate cache wrap (cls cls' : gmap string Member) name,
    inherit_names names delegate cache wrap cls = Ok cls' ->
    name ∈ names ->
    (forall doc attr,
       delegate name = Some (AttrCallable doc attr) ->
       exists call,
         cls' !! name = Some (Method name doc call)
         /\ forall (h : heap) (self : loc) (o : IndexObj) args
                   (kwargs : gmap string PyVal),
              h !! self = Some o ->
              is_Some (kwargs !! "inplace") ->
              call self args kwargs h
              = Raise (ValueError ("cannot use inplace with "
                                   ++ tp_name (ob_type o))) h)
    /\
    (forall doc getter setter,
       delegate name = Some (AttrProperty doc getter setter) ->
       cache = false ->
       exists fget fset,
         cls' !! name = Some (Property name doc fget fset)
         /\ forall (h : heap) (self : loc) (o : IndexObj) value a,
              h !! self = Some o ->
              setter (_data o) value = Ok a ->
              fset self value h
              = Return tt (<[self := {| ob_type := ob_type o; _data := a;
                                        _name := _name o;
                                        _cache := _cache o |}]> h)).
Proof.
  intros names delegate cache wrap cls cls' name Hrun Hin. split;
    [|intros doc getter setter Hattr ->;
      eexists _, _; split;
      [eapply inherit_names_keeps; eauto;
       unfold inherit_from_data; rewrite Hattr; reflexivity|];
      intros h self o value a Hself Hset; cbv beta;
      rewrite (bind_Return _ _ _ _ _ (deref_Some _ _ _ Hself));
      rewrite Hset; reflexivity].
  intros doc attr Hattr.
  assert (Hmeth : exists call,
             inherit_from_data name delegate cache wrap
             = Ok (Method name doc call)
             /\ forall (h : heap) (self : loc) (o : IndexObj) args
                       (kwargs : gmap string PyVal),
                  h !! self = Some o ->
                  is_Some (kwargs !! "inplace") ->
                  call self args kwargs h
                  = Raise (ValueError ("cannot use inplace with "
                                       ++ tp_name (ob_type o))) h).
  { unfold inherit_from_data. rewrite Hattr. eexists. split; [reflexivity|].
    intros h self o args kwargs Hself Hkw. cbv beta.
    rewrite (bind_Return _ _ _ _ _ (deref_Some _ _ _ Hself)).
    rewrite bool_decide_eq_true_2 by assumption. reflexivity. }
  destruct Hmeth as (call & Hcall & Hraise).
  exists call. split; [|exact Hraise].
  eapply inherit_names_keeps; eauto.
Qed.

End DelegatedMethods.

(** Witness of C10: [remove_unused_categories] pinned on a class. *)
Lemma inherited_method_rejects_inplace_witness :
  exists cls' call,
    @inherit_names Reference.collaborators ["remove_unused_categories"]
      Sample.categorical_methods false true ∅ = Ok cls'
    /\ cls' !! "remove_unused_categories"
       = Some (Method "remove_unused_categories"
                 "Remove categories which are not used." call)
    /\ call 4 [] {["inplace" := VBool true]} Sample.store0
       = Raise (ValueError "cannot use inplace with CategoricalIndex")
           Sample.store0.
Proof.
  eexists.
  destruct (@inherited_method_rejects_inplace Reference.collaborators
              ["remove_unused_categories"] Sample.categorical_methods
              false true ∅ _ "remove_unused_categories" eq_refl)
    as [Hmethod _].
  - apply list_elem_of_here.
  - destruct (Hmethod "Remove categories which are not used."
                (fun a _ _ => Ok (VArray a)) eq_refl)
      as (call & Hcls & Hcall).
    exists call. split; [reflexivity|]. split; [exact Hcls|].
    apply (Hcall Sample.store0 4 Sample.ci [] {["inplace" := VBool true]}).
    + reflexivity.
    + exists (VBool true). apply lookup_singleton_eq.
Defined.

(** Counterexample to C10 as stated: the delegation mechanism also makes
    property setters, and assigning new categories through the inherited
    [categories] property changes the categorical index it is called on. *)
Lemma inherited_setter_mutates_counterexample :
  ~ (forall name delegate cache wrap member_name doc fget fset
            (h : heap) (self : loc) value,
       @inherit_from_data Reference.collaborators name delegate cache wrap
       = Ok (Property member_name doc fget fset) ->
       outcome_heap (fset self value h) !! self = h !! self).
Proof.
  intros claim.
  specialize (claim "categories" Sample.categorical_methods false false
                _ _ _ _ Sample.store0 4
                (VTuple [VScalar (SStr "c"); VScalar (SStr "d")]) eq_refl).
  vm_compute in claim. discriminate claim.
Qed.

(** ** Equality *)

Section Equality.
Context `{Collaborators}.

(** C4, as the code has it: [x.equals(x)] is true by the identity test
    alone, for every backing array and every way its [equals] answers;
    against a different object [y] the answer is false when [y] is not an
    instance of the class of [x] (neither that class nor a subclass of it),
    whatever the data, and also when the operand is no index at all;
    otherwise it is the answer of the backing array's [equals] on the two
    data arrays. *)
Theorem equals_identity_type_then_data :
  (forall (h : heap) (x : loc), equals x (VIndex x) h = Return true h)
  /\
  (forall (h : heap) (x y : loc) (o p : IndexObj),
     h !! x = Some o -> h !! y = Some p -> x <> y ->
     issubclass (ob_type p) (tp_name (ob_type o)) = false ->
     equals x (VIndex y) h = Return false h)
  /\
  (forall (h : heap) (x : loc) (other : PyVal),
     (forall y, other <> VIndex y) ->
     equals x other h = Return false h)
  /\
  (forall (h : heap) (x y : loc) (o p : IndexObj),
     h !! x = Some o -> h !! y = Some p -> x <> y ->
     issubclass (ob_type p) (tp_name (ob_type o)) = true ->
     equals x (VIndex y) h = Return (ea_equals (_data o) (_data p)) h).
Proof.
  assert (Hdistinct : forall (h : heap) (x y : loc) (o p : IndexObj),
            h !! x = Some o -> h !! y = Some p -> x <> y ->
            equals x (VIndex y) h
            = Return (if issubclass (ob_type p) (tp_name (ob_type o))
                      then ea_equals (_data o) (_data p)
                      else false) h).
  { intros h x y o p Hx Hy Hne. unfold equals, is_.
    rewrite bool_decide_eq_false_2 by assumption.
    rewrite (bind_Return _ _ _ _ _ (deref_Some _ _ _ Hx)).
    rewrite (bind_Return _ _ _ _ _ (deref_Some _ _ _ Hy)).
    destruct (issubclass (ob_type p) (tp_name (ob_type o))); reflexivity. }
  split; [|split; [|split]].
  - intros h x. unfold equals, is_.
    rewrite bool_decide_eq_true_2 by reflexivity. reflexivity.
  - intros h x y o p Hx Hy Hne Hsub.
    rewrite (Hdistinct _ _ _ _ _ Hx Hy Hne), Hsub. reflexivity.
  - intros h x other Hother.
    destruct other as [y| | | | | | |]; try reflexivity.
    by destruct (Hother y).
  - intros h x y o p Hx Hy Hne Hsub.
    rewrite (Hdistinct _ _ _ _ _ Hx Hy Hne), Hsub. reflexivity.
Qed.

End Equality.

(** Counterexample to C4 as stated: an instance of a subclass of
    [DatetimeIndex] is not of the same concrete class as a plain
    [DatetimeIndex], and yet [equals] compares the data and answers true. *)
Lemma equals_subclass_counterexample :
  ~ (forall (h : heap) (x y : loc) (o p : IndexObj),
       h !! x = Some o -> h !! y = Some p ->
       ob_type p <> ob_type o ->
       @equals Reference.collaborators x (VIndex y) h = Return false h).
Proof.
  intros claim.
  specialize (claim Sample.store0 0 8 Sample.dti Sample.my_dti
                eq_refl eq_refl).
  assert (Hne : ob_type Sample.my_dti <> ob_type Sample.dti) by discriminate.
  specialize (claim Hne). vm_compute in claim. discriminate claim.
Qed.

(** ** Casting *)

Section Casting.
Context `{Collaborators}.

(** C6, as the code has it: on an index whose current dtype is a numpy
    dtype, [astype] to a datetime64 dtype of a resolution other than
    nanoseconds, and different from the current dtype, raises
    TypeError("Cannot cast <index class> to dtype") and leaves the store as
    it is; the nanosecond resolution passes the guard and reaches the cast
    of the backing array.  On an index whose current dtype is an extension
    dtype the guard never fires: a cast to any other dtype is handed to the
    backing array and its answer is wrapped. *)
Theorem astype_datetime_resolution_guard :
  forall (h : heap) (self : loc) (o : IndexObj) (copy : bool),
    h !! self = Some o ->
    (forall u : TimeUnit,
       is_np_dtype (dtype_of o) = true ->
       dtype_of o <> Np (np_datetime64 u) ->
       astype self (Np (np_datetime64 u)) copy h
       = if bool_decide (u = unit_ns)
         then (new_values <- lift (rewrite_exception
                                     (tp_name (arr_type (_data o)))
                                     (tp_name (ob_type o))
                                     (ea_astype (_data o)
                                        (Np (np_datetime64 u)) copy));;
               Index_new new_values (_name o)) h
         else Raise (TypeError ("Cannot cast " ++ tp_name (ob_type o)
                                ++ " to dtype")) h)
    /\
    (forall dtype : Dtype,
       is_np_dtype (dtype_of o) = false ->
       dtype_of o <> dtype ->
       astype self dtype copy h
       = (new_values <- lift (rewrite_exception
                                (tp_name (arr_type (_data o)))
                                (tp_name (ob_type o))
                                (ea_astype (_data o) dtype copy));;
          Index_new new_values (_name o)) h).
Proof.
  intros h self o copy Hself. split.
  - intros u Hnp Hne.
    unfold astype, pandas_dtype, dtype_of in *.
    rewrite (bind_Return _ _ _ _ _ (deref_Some _ _ _ Hself)).
    unfold is_dtype_equal. rewrite bool_decide_eq_false_2 by assumption.
    rewrite Hnp. simpl.
    destruct u; reflexivity.
  - intros dtype Hext Hne.
    unfold astype, pandas_dtype, dtype_of in *.
    rewrite (bind_Return _ _ _ _ _ (deref_Some _ _ _ Hself)).
    unfold is_dtype_equal. rewrite bool_decide_eq_false_2 by assumption.
    rewrite Hext. reflexivity.
Qed.

End Casting.

(** Witness of C6: a tz-naive [DatetimeIndex] cast to [M8[s]]. *)
Lemma astype_datetime_resolution_guard_witness :
  @astype Reference.collaborators 0 (Np (np_datetime64 unit_s)) true
    Sample.store0
  = Raise (TypeError "Cannot cast DatetimeIndex to dtype") Sample.store0.
Proof.
  destruct (@astype_datetime_resolution_guard Reference.collaborators
              Sample.store0 0 Sample.dti true eq_refl) as [Hguard _].
  apply (Hguard unit_s); [reflexivity | discriminate].
Defined.

(** Counterexample to C6 as stated: a [PeriodIndex] is date/time-like, but
    its dtype is an extension dtype, so the guard does not fire and the
    cast to [M8[s]] is whatever the backing array makes of it -- here an
    index over the period starts. *)
Lemma astype_period_counterexample :
  ~ (forall (h : heap) (self : loc) (o : IndexObj) (u : TimeUnit) (copy : bool),
       h !! self = Some o ->
       tp_name (ob_type o) ∈ ["DatetimeIndex"; "TimedeltaIndex"; "PeriodIndex"] ->
       u <> unit_ns ->
       exists msg h',
         @astype Reference.collaborators self (Np (np_datetime64 u)) copy h
         = Raise (TypeError msg) h').
Proof.
  intros claim.
  destruct (claim Sample.store0 6 Sample.pi unit_s true eq_refl)
    as (msg & h' & Hraise).
  - simpl. rewrite !elem_of_cons. auto.
  - discriminate.
  - vm_compute in Hraise. discriminate Hraise.
Qed.

(** ** Names of arithmetic results *)

Section ResultNames.
Context `{Collaborators}.

Lemma reconcile_left_idem a r :
  reconcile_names (reconcile_names a r) r = reconcile_names a r.
Proof.
  destruct a as [x|], r as [[y|]|]; simpl; try reflexivity.
  case_bool_decide; simpl; [|reflexivity].
  subst. rewrite bool_decide_eq_true_2; reflexivity.
Qed.

Lemma reconcile_right_idem a b :
  reconcile_names a (Some (reconcile_names a (Some b)))
  = reconcile_names a (Some b).
Proof.
  destruct a as [x|], b as [y|]; simpl; try reflexivity.
  case_bool_decide; simpl; [|reflexivity].
  rewrite bool_decide_eq_true_2; reflexivity.
Qed.

Lemma reconcile_both_idem a b :
  let n := reconcile_names a (Some b) in
  reconcile_names n (Some n) = n.
Proof.
  destruct a as [x|], b as [y|]; simpl; try reflexivity.
  case_bool_decide; simpl; [|reflexivity].
  rewrite bool_decide_eq_true_2; reflexivity.
Qed.

Lemma operand_name_run (h : heap) other :
  operand_name other h
  = match operand_name_in h other with
    | Some r => Return r h
    | None => Raise SystemError h
    end.
Proof.
  destruct other; try reflexivity.
  simpl. unfold bind, deref. destruct (h !! l); reflexivity.
Qed.

Lemma get_op_result_name_run (h : heap) self other o right :
  h !! self = Some o ->
  operand_name_in h other = Some right ->
  get_op_result_name self other h
  = Return (reconcile_names (_name o) right) h.
Proof.
  intros Hself Hother. unfold get_op_result_name.
  rewrite (bind_Return _ _ _ _ _ (deref_Some _ _ _ Hself)).
  unfold bind. rewrite operand_name_run, Hother. reflexivity.
Qed.

Lemma operand_name_in_app (h : heap) x other right :
  operand_name_in h other = Some right ->
  operand_name_in (h ++ [x]) other = Some right.
Proof.
  destruct other; simpl; try done.
  destruct (h !! l) as [o|] eqn:E; [|done].
  rewrite (lookup_app_l_Some _ _ _ _ E). done.
Qed.

Lemma Index_new_run (h : heap) data name :
  Index_new data name h
  = Return (length h)
      (h ++ [{| ob_type := _dtype_to_subclass (arr_dtype data);
                _data := data; _name := name; _cache := ∅ |}]).
Proof. reflexivity. Qed.

Lemma Index_ctor_alloc (h : heap) v name l h1 :
  Index_ctor v name h = Return l h1 ->
  l = length h /\ exists x, h1 = h ++ [x].
Proof.
  destruct v; simpl; intros Hrun;
    try (apply bind_inv_Return in Hrun as (a & h0 & Hlift & Hnew);
         apply lift_inv in Hlift as [_ ->];
         rewrite Index_new_run in Hnew; injection Hnew as <- <-; eauto).
  - apply bind_inv_Return in Hrun as (a & h0 & Hd & Hnew).
    apply deref_inv in Hd as [-> _].
    rewrite Index_new_run in Hnew. injection Hnew as <- <-. eauto.
  - rewrite Index_new_run in Hrun. injection Hrun as <- <-. eauto.
  - rewrite Index_new_run in Hrun. injection Hrun as <- <-. eauto.
Qed.

(** Naming the result [l] in a store where the operands show [o] and
    [right]: [l] carries the reconciled name afterwards, the other objects
    are as before, and the operands still reconcile to the same name. *)
Lemma name_result (h : heap) self other l o right v h' :
  h !! self = Some o ->
  operand_name_in h other = Some right ->
  (res_name <- get_op_result_name self other;;
   set_name l res_name;;; ret (VIndex l)) h = Return v h' ->
  let n := reconcile_names (_name o) right in
  v = VIndex l
  /\ (exists lo, h' !! l = Some lo /\ _name lo = n)
  /\ (forall l' x, l' <> l -> h !! l' = Some x -> h' !! l' = Some x)
  /\ exists o', h' !! self = Some o'
       /\ exists right', operand_name_in h' other = Some right'
            /\ reconcile_names (_name o') right' = n.
Proof.
  intros Hself Hother Hrun n.
  rewrite (bind_Return _ _ _ _ _
             (get_op_result_name_run _ _ _ _ _ Hself Hother)) in Hrun.
  fold n in Hrun. unfold set_name in Hrun.
  apply bind_inv_Return in Hrun as (u & h1 & Hset & Hret).
  apply bind_inv_Return in Hset as (lo & h0 & Hd & Hstore).
  apply deref_inv in Hd as [-> Hl].
  unfold store in Hstore. injection Hstore as <- <-.
  unfold ret in Hret. injection Hret as <- <-.
  assert (Hlt : l < length h) by (eapply lookup_lt_Some; eauto).
  split; [reflexivity|]. split; [|split].
  - eexists. rewrite list_lookup_insert_eq by assumption. split; reflexivity.
  - intros l' x Hne Hx. rewrite list_lookup_insert_ne by congruence. exact Hx.
  - destruct (decide (self = l)) as [->|Hsl].
    + rewrite list_lookup_insert_eq by assumption.
      eexists. split; [reflexivity|]. simpl.
      assert (lo = o) by congruence. subst lo.
      destruct other as [m| | | | | | |]; simpl in *;
        try (eexists; split; [exact Hother|]; apply reconcile_left_idem).
      destruct (decide (m = l)) as [->|Hml].
      * rewrite list_lookup_insert_eq by assumption. simpl.
        rewrite Hl in Hother. simpl in Hother. injection Hother as <-.
        eexists. split; [reflexivity|]. apply reconcile_both_idem.
      * rewrite list_lookup_insert_ne by congruence.
        eexists. split; [exact Hother|]. apply reconcile_left_idem.
    + rewrite list_lookup_insert_ne by congruence.
      exists o. split; [exact Hself|].
      destruct other as [m| | | | | | |]; simpl in *;
        try (eexists; split; [exact Hother|]; reflexivity).
      destruct (decide (m = l)) as [->|Hml].
      * rewrite list_lookup_insert_eq by assumption. simpl.
        rewrite Hl in Hother. simpl in Hother. injection Hother as <-.
        eexists. split; [reflexivity|]. apply reconcile_right_idem.
      * rewrite list_lookup_insert_ne by congruence.
        eexists. split; [exact Hother|]. reflexivity.
Qed.

Lemma wrap_index_named (h : heap) self other result o right l h' :
  h !! self = Some o ->
  operand_name_in h other = Some right ->
  _wrap_arithmetic_op self other result h = Return (VIndex l) h' ->
  let n := reconcile_names (_name o) right in
  (exists lo, h' !! l = Some lo /\ _name lo = n)
  /\ (forall l' x, l' <> l -> h !! l' = Some x -> h' !! l' = Some x)
  /\ exists o', h' !! self = Some o'
       /\ exists right', operand_name_in h' other = Some right'
            /\ reconcile_names (_name o') right' = n.
Proof.
  intros Hself Hother Hrun n.
  assert (Hfresh : forall v,
    (l0 <- Index_ctor v None;;
     res_name <- get_op_result_name self other;;
     set_name l0 res_name;;; ret (VIndex l0)) h = Return (VIndex l) h' ->
    (exists lo, h' !! l = Some lo /\ _name lo = n)
    /\ (forall l' x, l' <> l -> h !! l' = Some x -> h' !! l' = Some x)
    /\ exists o', h' !! self = Some o'
         /\ exists right', operand_name_in h' other = Some right'
              /\ reconcile_names (_name o') right' = n).
  { intros v Hv.
    apply bind_inv_Return in Hv as (l0 & h1 & Hctor & Hname).
    apply Index_ctor_alloc in Hctor as [-> [x ->]].
    pose proof (lookup_app_l_Some _ [x] _ _ Hself) as Hself1.
    pose proof (operand_name_in_app _ x _ _ Hother) as Hother1.
    destruct (name_result _ _ _ _ _ _ _ _ Hself1 Hother1 Hname)
      as (Hv & Hl & Hframe & Hrest).
    injection Hv as ->.
    split; [exact Hl|]. split; [|exact Hrest].
    intros l' y Hne Hy. apply Hframe; [exact Hne|].
    by apply lookup_app_l_Some. }
  destruct result as [l0| | | | | |xs|]; cbn [_wrap_arithmetic_op] in Hrun;
    try (by apply (Hfresh _ Hrun)).
  - change ((res_name <- get_op_result_name self other;;
             set_name l0 res_name;;; ret (VIndex l0)) h
            = Return (VIndex l) h') in Hrun.
    destruct (name_result _ _ _ _ _ _ _ _ Hself Hother Hrun)
      as (Hv & Hl & Hframe & Hrest).
    injection Hv as <-. auto.
  - destruct xs as [|r0 [|r1 [|r2 xs]]]; try discriminate Hrun.
    apply bind_inv_Return in Hrun as (w0 & h1 & _ & Hrun).
    apply bind_inv_Return in Hrun as (w1 & h2 & _ & Hrun).
    discriminate Hrun.
  - discriminate Hrun.
Qed.

Lemma wrap_tuple_inv (h : heap) self other result ws h' :
  _wrap_arithmetic_op self other result h = Return (VTuple ws) h' ->
  exists r0 r1 w0 w1 h1,
    ws = [w0; w1]
    /\ _wrap_arithmetic_op self other r0 h = Return w0 h1
    /\ _wrap_arithmetic_op self other r1 h1 = Return w1 h'.
Proof.
  assert (Hno : forall (c : M loc),
    (l <- c;;
     res_name <- get_op_result_name self other;;
     set_name l res_name;;; ret (VIndex l)) h <> Return (VTuple ws) h').
  { intros c Hc.
    apply bind_inv_Return in Hc as (l & h1 & _ & Hc).
    apply bind_inv_Return in Hc as (n & h2 & _ & Hc).
    apply bind_inv_Return in Hc as (u & h3 & _ & Hc).
    discriminate Hc. }
  destruct result as [l0| | | | | |xs|]; cbn [_wrap_arithmetic_op];
    intros Hrun; try (by apply Hno in Hrun); try discriminate Hrun.
  destruct xs as [|r0 [|r1 [|r2 xs]]]; try discriminate Hrun.
  apply bind_inv_Return in Hrun as (w0 & h1 & H0 & Hrun).
  apply bind_inv_Return in Hrun as (w1 & h2 & H1 & Hrun).
  injection Hrun as <- <-. eauto 10.
Qed.

Lemma is_object_index_subclass_pure (h : heap) other b h1 :
  is_object_index_subclass other h = Return b h1 -> h1 = h.
Proof.
  destruct other; simpl; try (by intros [= ]).
  intros Hrun. apply bind_inv_Return in Hrun as (o & h0 & Hd & Hret).
  apply deref_inv in Hd as [-> _]. by injection Hret.
Qed.

Lemma _maybe_unwrap_index_pure (h : heap) obj v h1 :
  _maybe_unwrap_index obj h = Return v h1 -> h1 = h.
Proof.
  destruct obj; simpl; try (by intros [= ]).
  intros Hrun. apply bind_inv_Return in Hrun as (o & h0 & Hd & Hret).
  apply deref_inv in Hd as [-> _].
  apply bind_inv_Return in Hret as (data & h2 & Hdata & Hret).
  apply lift_inv in Hdata as [_ ->]. by injection Hret.
Qed.

(** C3: every index an arithmetic operator returns -- the single result,
    or either half of a divmod pair -- carries the reconciled name of the
    operands: the common name when both operands are indexes or series
    named alike, no name in every other case (names differ, an operand is
    unnamed, or the right operand is neither index nor series). *)
Theorem arith_result_name :
  forall (h : heap) (self : loc) (other : PyVal) opname
         (o : IndexObj) (right : option Name) v h' r,
    h !! self = Some o ->
    operand_name_in h other = Some right ->
    _make_wrapped_arith_op opname self other h = Return v h' ->
    r ∈ wrapped_indexes v ->
    exists ro,
      h' !! r = Some ro
      /\ (forall n, _name o = Some n -> right = Some (Some n) ->
           _name ro = Some n)
      /\ ((forall n, ~ (_name o = Some n /\ right = Some (Some n))) ->
          _name ro = None).
Proof.
  intros h self other opname o right v h' r Hself Hother Hrun Hin.
  assert (Hgoal : forall ro,
            _name ro = reconcile_names (_name o) right ->
            (forall n, _name o = Some n -> right = Some (Some n) ->
                       _name ro = Some n)
            /\ ((forall n, ~ (_name o = Some n /\ right = Some (Some n))) ->
                _name ro = None)).
  { intros ro ->. split.
    - intros n -> ->. simpl. by rewrite bool_decide_eq_true_2.
    - intros Hno. destruct (_name o) as [a|]; [|reflexivity].
      destruct right as [[b|]|]; try reflexivity. simpl.
      case_bool_decide; [|reflexivity]. subst. by destruct (Hno b). }
  unfold _make_wrapped_arith_op in Hrun.
  apply bind_inv_Return in Hrun as (defer & h1 & Hdefer & Hrun).
  apply is_object_index_subclass_pure in Hdefer as ->.
  destruct defer.
  { injection Hrun as <- <-. simpl in Hin. by apply elem_of_nil in Hin. }
  rewrite (bind_Return _ _ _ _ _ (deref_Some _ _ _ Hself)) in Hrun.
  destruct (ea_getattr (_data o) opname) as [meth|]; [|discriminate Hrun].
  apply bind_inv_Return in Hrun as (u & h1 & Hu & Hrun).
  apply _maybe_unwrap_index_pure in Hu as ->.
  apply bind_inv_Return in Hrun as (result & h1 & Hres & Hrun).
  apply lift_inv in Hres as [_ ->].
  destruct v as [l| | | | | |ws|]; simpl in Hin;
    try (by apply elem_of_nil in Hin).
  - apply list_elem_of_singleton in Hin as ->.
    destruct (wrap_index_named _ _ _ _ _ _ _ _ Hself Hother Hrun)
      as ((lo & Hlo & Hn) & _ & _).
    exists lo. split; [exact Hlo|]. by apply Hgoal.
  - apply wrap_tuple_inv in Hrun as (r0 & r1 & w0 & w1 & h1 & -> & H0 & H1).
    destruct w0 as [a| | | | | | |]; simpl in Hin;
      try (by apply elem_of_nil in Hin).
    destruct w1 as [b| | | | | | |]; simpl in Hin;
      try (by apply elem_of_nil in Hin).
    destruct (wrap_index_named _ _ _ _ _ _ _ _ Hself Hother H0)
      as ((ao & Hao & Han) & _ & (o1 & Hself1 & right1 & Hother1 & Hn1)).
    destruct (wrap_index_named _ _ _ _ _ _ _ _ Hself1 Hother1 H1)
      as ((bo & Hbo & Hbn) & Hframe & _).
    rewrite Hn1 in Hbn.
    apply elem_of_cons in Hin as [->|Hin].
    + destruct (decide (a = b)) as [->|Hab].
      * exists bo. split; [exact Hbo|]. by apply Hgoal.
      * exists ao. split; [by apply Hframe|]. by apply Hgoal.
    + apply list_elem_of_singleton in Hin as ->.
      exists bo. split; [exact Hbo|]. by apply Hgoal.
Qed.

End ResultNames.

(** Witness of C3: a datetime index named "x" plus a timedelta index named
    "x" gives an index named "x"; plus one named "y", an unnamed index. *)
Lemma arith_result_name_witness :
  (exists ro,
     outcome_heap (@_make_wrapped_arith_op Reference.collaborators
                     "__add__" 0 (VIndex 1) Sample.store0) !! 9 = Some ro
     /\ _name ro = Some "x")
  /\
  (exists ro,
     outcome_heap (@_make_wrapped_arith_op Reference.collaborators
                     "__add__" 0 (VIndex 2) Sample.store0) !! 9 = Some ro
     /\ _name ro = None).
Proof.
  split.
  - destruct (@arith_result_name Reference.collaborators Sample.store0 0
                (VIndex 1) "__add__" Sample.dti (Some (Some "x")) (VIndex 9)
                (outcome_heap (@_make_wrapped_arith_op Reference.collaborators
                                 "__add__" 0 (VIndex 1) Sample.store0))
                9 eq_refl eq_refl)
      as (ro & Hro & Hsame & _).
    + vm_compute. reflexivity.
    + apply list_elem_of_here.
    + exists ro. split; [exact Hro|]. apply (Hsame "x"); reflexivity.
  - destruct (@arith_result_name Reference.collaborators Sample.store0 0
                (VIndex 2) "__add__" Sample.dti (Some (Some "y")) (VIndex 9)
                (outcome_heap (@_make_wrapped_arith_op Reference.collaborators
                                 "__add__" 0 (VIndex 2) Sample.store0))
                9 eq_refl eq_refl)
      as (ro & Hro & _ & Hdiffer).
    + vm_compute. reflexivity.
    + apply list_elem_of_here.
    + exists ro. split; [exact Hro|]. apply Hdiffer.
      intros n [Hx Hy]. simpl in Hx. congruence.
Defined.

(** ** Structural operations return new instances *)

Section Frames.
Context `{Collaborators}.

Lemma extends_ret {A} (a : A) : extends_store (ret a).
Proof. intros h. reflexivity. Qed.

Lemma extends_raise {A} e : extends_store (@raise A e).
Proof. intros h. reflexivity. Qed.

Lemma extends_lift {A} (r : result A) : extends_store (lift r).
Proof. destruct r; intros h; reflexivity. Qed.

Lemma extends_deref l : extends_store (deref l).
Proof. intros h. unfold deref. destruct (h !! l); reflexivity. Qed.

Lemma extends_alloc o : extends_store (alloc o).
Proof. intros h. simpl. apply prefix_app_r. reflexivity. Qed.

Lemma extends_bind {A B} (c : M A) (k : A -> M B) :
  extends_store c -> (forall a, extends_store (k a)) ->
  extends_store (bind c k).
Proof.
  intros Hc Hk h. unfold bind. specialize (Hc h).
  destruct (c h) as [a h1|e h1]; simpl in *; [|exact Hc].
  etrans; [exact Hc|apply Hk].
Qed.

Lemma allocates_alloc o : allocates (alloc o).
Proof. intros h r h' [= <- <-]. apply alloc_new. Qed.

Lemma allocates_raise e : allocates (raise e).
Proof. intros h r h' [= ]. Qed.

Lemma allocates_bind {A} (c : M A) (k : A -> M loc) :
  extends_store c -> (forall a, allocates (k a)) -> allocates (bind c k).
Proof.
  intros Hc Hk h r h' Hrun.
  apply bind_inv_Return in Hrun as (a & h1 & Hca & Hka).
  specialize (Hc h). rewrite Hca in Hc. simpl in Hc.
  eapply new_instance_extend; [by eapply Hk|exact Hc].
Qed.


Lemma _simple_new_allocates cls array name :
  allocates (_simple_new cls array name)
  /\ extends_store (_simple_new cls array name).
Proof.
  unfold _simple_new.
  destruct (tp_data_cls cls) as [data_cls|];
    [destruct (issubclass (arr_type array) data_cls)|];
    auto using allocates_alloc, allocates_raise, extends_alloc, extends_raise.
Qed.

Lemma Index_new_allocates data name :
  allocates (Index_new data name) /\ extends_store (Index_new data name).
Proof. split; [apply allocates_alloc|apply extends_alloc]. Qed.

Lemma Index_copy_allocates self :
  allocates (Index_copy self) /\ extends_store (Index_copy self).
Proof.
  unfold Index_copy. split.
  - apply allocates_bind; [apply extends_deref|]. intros; apply allocates_alloc.
  - apply extends_bind; [apply extends_deref|]. intros; apply extends_alloc.
Qed.

Lemma Index_insert_allocates self loc item :
  allocates (Index_insert self loc item)
  /\ extends_store (Index_insert self loc item).
Proof.
  unfold Index_insert. split.
  - apply allocates_bind; [apply extends_deref|]. intros o.
    apply allocates_bind; [apply extends_lift|]. intros a.
    apply Index_new_allocates.
  - apply extends_bind; [apply extends_deref|]. intros o.
    apply extends_bind; [apply extends_lift|]. intros a.
    apply Index_new_allocates.
Qed.

Lemma delete_allocates self loc :
  allocates (delete self loc) /\ extends_store (delete self loc).
Proof.
  unfold delete. split.
  - apply allocates_bind; [apply extends_deref|]. intros o.
    apply allocates_bind; [apply extends_lift|]. intros a.
    apply _simple_new_allocates.
  - apply extends_bind; [apply extends_deref|]. intros o.
    apply extends_bind; [apply extends_lift|]. intros a.
    apply _simple_new_allocates.
Qed.

Lemma repeat_allocates self repeats axis :
  allocates (repeat self repeats axis)
  /\ extends_store (repeat self repeats axis).
Proof.
  unfold repeat. split.
  - apply allocates_bind; [apply extends_lift|]. intros _.
    apply allocates_bind; [apply extends_deref|]. intros o.
    apply allocates_bind; [apply extends_lift|]. intros a.
    apply _simple_new_allocates.
  - apply extends_bind; [apply extends_lift|]. intros _.
    apply extends_bind; [apply extends_deref|]. intros o.
    apply extends_bind; [apply extends_lift|]. intros a.
    apply _simple_new_allocates.
Qed.

Lemma astype_extends self dtype copy :
  extends_store (astype self dtype copy).
Proof.
  unfold astype.
  apply extends_bind; [apply extends_deref|]. intros o.
  destruct (is_dtype_equal _ _).
  - destruct (negb copy); [apply extends_ret|apply Index_copy_allocates].
  - destruct (_ && _); [apply extends_raise|].
    apply extends_bind; [apply extends_lift|]. intros a.
    apply Index_new_allocates.
Qed.

(** [astype] returns [self] in exactly one case, a new instance in every
    other. *)
Lemma astype_result (h : heap) self dtype copy r h' :
  astype self dtype copy h = Return r h' ->
  (r = self /\ h' = h /\ copy = false
   /\ exists o, h !! self = Some o /\ is_dtype_equal (dtype_of o) dtype = true)
  \/ new_instance h r h'.
Proof.
  unfold astype, pandas_dtype, dtype_of. intros Hrun.
  apply bind_inv_Return in Hrun as (o & h0 & Hd & Hrun).
  apply deref_inv in Hd as [-> Hself].
  destruct (is_dtype_equal (arr_dtype (_data o)) dtype) eqn:Heq.
  - destruct copy; simpl in Hrun.
    + right. by apply (proj1 (Index_copy_allocates self)).
    + left. injection Hrun as <- <-. eauto 10.
  - right. destruct (_ && _); [discriminate Hrun|].
    revert Hrun. generalize h r h'.
    apply allocates_bind; [apply extends_lift|]. intros a.
    apply Index_new_allocates.
Qed.

Lemma insert_allocates depth :
  forall self loc item,
    allocates (insert depth self loc item)
    /\ extends_store (insert depth self loc item).
Proof.
  induction depth as [|depth IH]; intros self loc item; simpl.
  - split; [apply allocates_raise|apply extends_raise].
  - assert (Hretry : forall o,
      allocates (dtype <- lift (_find_common_type_compat o item);;
                 cast <- astype self dtype true;;
                 c <- deref cast;;
                 if is_extension_index (ob_type c)
                 then insert depth cast loc item
                 else Index_insert cast loc item)
      /\ extends_store (dtype <- lift (_find_common_type_compat o item);;
                       cast <- astype self dtype true;;
                       c <- deref cast;;
                       if is_extension_index (ob_type c)
                       then insert depth cast loc item
                       else Index_insert cast loc item)).
    { intros o. split.
      - apply allocates_bind; [apply extends_lift|]. intros dtype.
        apply allocates_bind; [apply astype_extends|]. intros cast.
        apply allocates_bind; [apply extends_deref|]. intros c.
        destruct (is_extension_index (ob_type c));
          [apply IH|apply Index_insert_allocates].
      - apply extends_bind; [apply extends_lift|]. intros dtype.
        apply extends_bind; [apply astype_extends|]. intros cast.
        apply extends_bind; [apply extends_deref|]. intros c.
        destruct (is_extension_index (ob_type c));
          [apply IH|apply Index_insert_allocates]. }
    split.
    + apply allocates_bind; [apply extends_deref|]. intros o.
      destruct (ea_insert (_data o) loc item) as [a|[]];
        try apply allocates_raise;
        [apply _simple_new_allocates|apply Hretry|apply Hretry].
    + apply extends_bind; [apply extends_deref|]. intros o.
      destruct (ea_insert (_data o) loc item) as [a|[]];
        try apply extends_raise;
        [apply _simple_new_allocates|apply Hretry|apply Hretry].
Qed.

End Frames.

Section Immutability.
Context `{Collaborators}.

Lemma extends_lookup {A} (c : M A) (h : heap) l o :
  extends_store c -> h !! l = Some o -> outcome_heap (c h) !! l = Some o.
Proof. intros Hc Hl. eapply prefix_lookup_Some; [exact Hl|apply Hc]. Qed.

Lemma new_instance_other (h : heap) r h' l o :
  new_instance h r h' -> h !! l = Some o -> r <> l.
Proof. intros (Hn & _ & _) Hl ->. congruence. Qed.

(** C9, as the code has it: [delete], [repeat] and [insert] return an
    object that was not in the store before, and so does [astype] except
    when the dtype asked for is the current one and [copy] is false, where
    it returns [self] and changes nothing.  Whatever the outcome -- a
    result or an exception -- the original is found in the store afterwards
    exactly as it was (class, data, name), as is every other object. *)
Theorem structural_operations_leave_original :
  forall (h : heap) (self : loc) (o : IndexObj),
    h !! self = Some o ->
    (forall loc,
       outcome_heap (delete self loc h) !! self = Some o
       /\ forall r h', delete self loc h = Return r h' ->
                       r <> self /\ new_instance h r h')
    /\
    (forall repeats axis,
       outcome_heap (repeat self repeats axis h) !! self = Some o
       /\ forall r h', repeat self repeats axis h = Return r h' ->
                       r <> self /\ new_instance h r h')
    /\
    (forall depth loc item,
       outcome_heap (insert depth self loc item h) !! self = Some o
       /\ forall r h', insert depth self loc item h = Return r h' ->
                       r <> self /\ new_instance h r h')
    /\
    (forall dtype copy,
       outcome_heap (astype self dtype copy h) !! self = Some o
       /\ forall r h', astype self dtype copy h = Return r h' ->
            (r = self /\ h' = h /\ copy = false
             /\ is_dtype_equal (dtype_of o) dtype = true)
            \/ (r <> self /\ new_instance h r h'))
    /\
    (forall dtype,
       is_dtype_equal (dtype_of o) dtype = true ->
       astype self dtype false h = Return self h).
Proof.
  intros h self o Hself.
  assert (Hnoop : forall dtype,
            is_dtype_equal (dtype_of o) dtype = true ->
            astype self dtype false h = Return self h).
  { intros dtype Heq. unfold astype, pandas_dtype, dtype_of in *.
    rewrite (bind_Return _ _ _ _ _ (deref_Some _ _ _ Hself)).
    rewrite Heq. reflexivity. }
  split; [|split; [|split; [|split; [|exact Hnoop]]]]; repeat split.
  - apply extends_lookup; [apply delete_allocates|exact Hself].
  - eapply new_instance_other; [|exact Hself].
    by eapply (proj1 (delete_allocates self loc)).
  - by eapply (proj1 (delete_allocates self loc)).
  - by eapply (proj1 (delete_allocates self loc)).
  - by eapply (proj1 (delete_allocates self loc)).
  - apply extends_lookup; [apply repeat_allocates|exact Hself].
  - eapply new_instance_other; [|exact Hself].
    by eapply (proj1 (repeat_allocates self repeats axis)).
  - by eapply (proj1 (repeat_allocates self repeats axis)).
  - by eapply (proj1 (repeat_allocates self repeats axis)).
  - by eapply (proj1 (repeat_allocates self repeats axis)).
  - apply extends_lookup; [apply insert_allocates|exact Hself].
  - eapply new_instance_other; [|exact Hself].
    by eapply (proj1 (insert_allocates depth self loc item)).
  - by eapply (proj1 (insert_allocates depth self loc item)).
  - by eapply (proj1 (insert_allocates depth self loc item)).
  - by eapply (proj1 (insert_allocates depth self loc item)).
  - apply extends_lookup; [apply astype_extends|exact Hself].
  - intros r h' Hrun.
    destruct (astype_result _ _ _ _ _ _ Hrun)
      as [(-> & -> & -> & o' & Ho' & Heq)|Hnew].
    + left. repeat split. congruence.
    + right. split; [|exact Hnew].
      eapply new_instance_other; [exact Hnew|exact Hself].
Qed.

End Immutability.

(** Witness of C9: deleting from the sample datetime index gives the
    object at the first free address and leaves the index as it was. *)
Lemma structural_operations_leave_original_witness :
  outcome_heap (@delete Reference.collaborators 0 (One 1) Sample.store0) !! 0
  = Some Sample.dti
  /\ 9 <> 0
  /\ new_instance Sample.store0 9
       (outcome_heap (@delete Reference.collaborators 0 (One 1)
                        Sample.store0)).
Proof.
  destruct (@structural_operations_leave_original Reference.collaborators
              Sample.store0 0 Sample.dti eq_refl) as (Hdelete & _).
  destruct (Hdelete (One 1)) as [Hsame Hnew].
  split; [exact Hsame|].
  apply (Hnew 9). reflexivity.
Defined.

(** Counterexample to C9 as stated: [astype] to the current dtype with
    [copy=False] returns the index it was called on, not a new one. *)
Lemma astype_returns_self_counterexample :
  ~ (forall (h : heap) (self : loc) (o : IndexObj) dtype copy r h',
       h !! self = Some o ->
       @astype Reference.collaborators self dtype copy h = Return r h' ->
       r <> self).
Proof.
  intros claim.
  apply (claim Sample.store0 0 Sample.dti Sample.M8ns false 0 Sample.store0);
    reflexivity.
Qed.

(** ** The reference implementation meets the contracts *)

Lemma insert_at_length p x l : length (insert_at p x l) = S (length l).
Proof.
  unfold insert_at. rewrite length_app. simpl.
  rewrite length_take, length_drop. lia.
Qed.

Lemma insert_at_lookup p x l :
  p <= length l -> insert_at p x l !! p = Some x.
Proof.
  intros Hp. unfold insert_at.
  rewrite lookup_app_r by (rewrite length_take; lia).
  rewrite length_take. replace (p - p `min` length l) with 0 by lia.
  reflexivity.
Qed.

Lemma insert_position_bound loc n p :
  insert_position loc n = Some p -> p <= n.
Proof.
  unfold insert_position.
  destruct (_ && _) eqn:E; [|discriminate].
  intros [= <-]. apply andb_true_iff in E as [H0 H1].
  apply Z.leb_le in H0, H1. lia.
Qed.


Lemma Reference_accepts_by_dtype a b item :
  arr_type a = arr_type b -> arr_dtype a = arr_dtype b ->
  Reference.accepts a item = Reference.accepts b item.
Proof. unfold Reference.accepts. intros -> ->. reflexivity. Qed.

Lemma Reference_contracts : @Contracts Reference.collaborators.
Proof.
  constructor; simpl.
  - intros a loc item a'. unfold Reference.insert, Reference.validate_setitem_value.
    destruct (bool_decide (arr_type a = Reference.IntervalArray_t));
      destruct (Reference.accepts a item);
      destruct (insert_position loc (length (arr_values a))) as [p|];
      intros [= <-]; eauto.
  - intros a loc item p. unfold Reference.insert, Reference.validate_setitem_value.
    destruct (Reference.accepts a item); [|discriminate].
    intros _ ->. destruct (bool_decide _); reflexivity.
  - intros a b item Ht Hd. unfold Reference.validate_setitem_value.
    rewrite (Reference_accepts_by_dtype a b item Ht Hd), Ht. reflexivity.
  - intros a p Hp. unfold Reference.delete, Reference.delete_position.
    destruct (Z.ltb_spec (Z.of_nat p) 0); [lia|].
    rewrite andb_true_intro
      by (split; [apply Z.leb_le|apply Z.ltb_lt]; lia).
    by rewrite Nat2Z.id.
  - intros a. unfold Reference.equals. by apply bool_decide_eq_true_2.
Qed.

(** ** Casting to the current dtype *)

Section CastNoOp.
Context `{Collaborators}.

Lemma rewrite_exception_Ok {A} old_name new_name (r : result A) a :
  rewrite_exception old_name new_name r = Ok a -> r = Ok a.
Proof. destruct r; simpl; congruence. Qed.

Lemma is_dtype_equal_true a b : is_dtype_equal a b = true <-> a = b.
Proof. unfold is_dtype_equal. apply bool_decide_eq_true. Qed.

Lemma astype_method_same_dtype (h : heap) r ro :
  h !! r = Some ro ->
  astype_method r (dtype_of ro) false h = Return r h.
Proof.
  intros Hr. unfold astype_method.
  rewrite (bind_Return _ _ _ _ _ (deref_Some _ _ _ Hr)).
  destruct (is_extension_index (ob_type ro)).
  - unfold astype, pandas_dtype.
    rewrite (bind_Return _ _ _ _ _ (deref_Some _ _ _ Hr)).
    unfold dtype_of. rewrite (proj2 (is_dtype_equal_true _ _) eq_refl).
    reflexivity.
  - unfold Index_astype.
    rewrite (bind_Return _ _ _ _ _ (deref_Some _ _ _ Hr)).
    unfold dtype_of. rewrite (proj2 (is_dtype_equal_true _ _) eq_refl).
    reflexivity.
Qed.

(** What a successful [astype] returns is an object of the store that
    carries the name of the original. *)
Lemma astype_keeps_name (h : heap) self o dtype copy r h1 :
  h !! self = Some o ->
  astype self dtype copy h = Return r h1 ->
  exists ro, h1 !! r = Some ro /\ _name ro = _name o.
Proof.
  intros Hself Hrun. unfold astype, pandas_dtype in Hrun.
  rewrite (bind_Return _ _ _ _ _ (deref_Some _ _ _ Hself)) in Hrun.
  destruct (is_dtype_equal (arr_dtype (_data o)) dtype).
  - destruct copy; simpl in Hrun.
    + unfold Index_copy in Hrun.
      rewrite (bind_Return _ _ _ _ _ (deref_Some _ _ _ Hself)) in Hrun.
      injection Hrun as <- <-.
      eexists. split; [apply alloc_lookup|]. reflexivity.
    + injection Hrun as <- <-. eauto.
  - destruct (_ && _); [discriminate Hrun|].
    apply bind_inv_Return in Hrun as (a & h0 & Hcast & Hnew).
    apply lift_inv in Hcast as [_ ->].
    rewrite Index_new_run in Hnew. injection Hnew as <- <-.
    eexists. split; [apply alloc_lookup|]. reflexivity.
Qed.

(** C5, as the code has it: [astype] to the current dtype is a no-op: with
    [copy=False] it returns [self] and leaves the store as it is, with
    [copy=True] it returns a shallow copy (a new object of the same class
    over the same data and name).  Consequently, whenever [astype(dtype)]
    returns an index whose dtype is the dtype asked for,
    [astype(dtype, copy=False)] on that result returns that very object,
    which is equal to itself by [equals]. *)
Theorem astype_same_dtype_noop :
  forall (h : heap) (self : loc) (o : IndexObj),
    h !! self = Some o ->
    astype self (dtype_of o) false h = Return self h
    /\ astype self (dtype_of o) true h
       = Return (length h)
           (h ++ [{| ob_type := ob_type o; _data := _data o;
                     _name := _name o; _cache := ∅ |}])
    /\ forall dtype copy r h1,
         astype self dtype copy h = Return r h1 ->
         exists ro,
           h1 !! r = Some ro
           /\ (dtype_of ro = dtype ->
               astype_method r dtype false h1 = Return r h1
               /\ equals r (VIndex r) h1 = Return true h1).
Proof.
  intros h self o Hself. split; [|split].
  - unfold astype, pandas_dtype.
    rewrite (bind_Return _ _ _ _ _ (deref_Some _ _ _ Hself)).
    unfold dtype_of. rewrite (proj2 (is_dtype_equal_true _ _) eq_refl).
    reflexivity.
  - unfold astype, pandas_dtype.
    rewrite (bind_Return _ _ _ _ _ (deref_Some _ _ _ Hself)).
    unfold dtype_of. rewrite (proj2 (is_dtype_equal_true _ _) eq_refl).
    simpl. unfold Index_copy.
    rewrite (bind_Return _ _ _ _ _ (deref_Some _ _ _ Hself)).
    reflexivity.
  - intros dtype copy r h1 Hrun.
    destruct (astype_keeps_name _ _ _ _ _ _ _ Hself Hrun) as (ro & Hr & _).
    exists ro. split; [exact Hr|]. intros Hd. split.
    + rewrite <- Hd. by apply astype_method_same_dtype.
    + unfold equals, is_. by rewrite bool_decide_eq_true_2.
Qed.

End CastNoOp.

(** Witness of C5: the sample datetime index cast to its own dtype, and
    cast to object twice. *)
Lemma astype_same_dtype_noop_witness :
  @astype Reference.collaborators 0 Sample.M8ns false Sample.store0
  = Return 0 Sample.store0
  /\ @astype_method Reference.collaborators 9 (Np np_object) false
       (outcome_heap (@astype Reference.collaborators 0 (Np np_object) true
                        Sample.store0))
     = Return 9
         (outcome_heap (@astype Reference.collaborators 0 (Np np_object) true
                          Sample.store0)).
Proof.
  destruct (@astype_same_dtype_noop Reference.collaborators
              Sample.store0 0 Sample.dti eq_refl)
    as (Hself & _ & Htwice).
  split; [exact Hself|].
  destruct (Htwice (Np np_object) true 9 _ eq_refl) as (ro & Hro & Hsame).
  apply Hsame.
  injection Hro as <-. reflexivity.
Defined.

(** Counterexample to C5 as stated: a period index cast to [M8[s]] by a
    backing array that answers in nanoseconds is a datetime index of dtype
    [M8[ns]]; the same cast with [copy=False] on that result is refused by
    the resolution guard of [astype], so the second call returns nothing. *)
Lemma astype_twice_counterexample :
  ~ (forall (h : heap) (self : loc) (o : IndexObj) (dtype : Dtype)
            (r : loc) (h1 : heap),
       h !! self = Some o ->
       @astype NanosecondCast.collaborators self dtype true h = Return r h1 ->
       exists r2 h2,
         @astype_method NanosecondCast.collaborators r dtype false h1
         = Return r2 h2
         /\ @equals NanosecondCast.collaborators r2 (VIndex r) h2
            = Return true h2).
Proof.
  intros claim.
  destruct (claim Sample.store0 6 Sample.pi (Np (np_datetime64 unit_s)) 9
              (Sample.store0
               ++ [mkIndex Reference.DatetimeIndex_t
                     (mkArr Reference.DatetimeArray_t Sample.M8ns
                        [STimestamp 86400000000000;
                         STimestamp 172800000000000])
                     None ∅])
              eq_refl eq_refl)
    as (r2 & h2 & Hsecond & _).
  assert (Hraise :
    @astype_method NanosecondCast.collaborators 9 (Np (np_datetime64 unit_s))
      false
      (Sample.store0
       ++ [mkIndex Reference.DatetimeIndex_t
             (mkArr Reference.DatetimeArray_t Sample.M8ns
                [STimestamp 86400000000000; STimestamp 172800000000000])
             None ∅])
    = Raise (TypeError "Cannot cast DatetimeIndex to dtype")
        (Sample.store0
         ++ [mkIndex Reference.DatetimeIndex_t
               (mkArr Reference.DatetimeArray_t Sample.M8ns
                  [STimestamp 86400000000000; STimestamp 172800000000000])
               None ∅])) by reflexivity.
  rewrite Hraise in Hsecond. discriminate Hsecond.
Qed.

(** ** Insertion *)

Section Insertion.
Context `{Collaborators} `{!Contracts}.

Lemma _simple_new_inv (h : heap) cls array name r h' :
  _simple_new cls array name h = Return r h' ->
  r = length h
  /\ h' = h ++ [{| ob_type := cls; _data := array; _name := name;
                   _cache := ∅ |}].
Proof.
  unfold _simple_new.
  destruct (tp_data_cls cls) as [data_cls|]; [|discriminate].
  destruct (issubclass (arr_type array) data_cls); [|discriminate].
  intros [= <- <-]. auto.
Qed.

Lemma _simple_new_ok (h : heap) cls array name data_cls :
  tp_data_cls cls = Some data_cls ->
  issubclass (arr_type array) data_cls = true ->
  _simple_new cls array name h
  = Return (length h)
      (h ++ [{| ob_type := cls; _data := array; _name := name;
                _cache := ∅ |}]).
Proof. unfold _simple_new. intros -> ->. reflexivity. Qed.

(** After a ValueError or TypeError of the backing array, [insert] is the
    retry. *)
Lemma insert_refused_retries (h : heap) self o loc item depth :
  h !! self = Some o ->
  (exists msg, ea_insert (_data o) loc item = Err (ValueError msg)
               \/ ea_insert (_data o) loc item = Err (TypeError msg)) ->
  insert (S depth) self loc item h = retry_insert depth self o loc item h.
Proof.
  intros Hself (msg & Hfail). simpl. unfold retry_insert, insert_method.
  rewrite (bind_Return _ _ _ _ _ (deref_Some _ _ _ Hself)).
  destruct Hfail as [-> | ->]; reflexivity.
Qed.

(** With the hook answering a common dtype, the retry at a position in
    range returns an index one element longer with the item at the target
    position. *)
Lemma retry_insert_returns (h : heap) self o loc item p dtype depth :
  h !! self = Some o ->
  insert_position loc (length (values_of o)) = Some p ->
  _find_common_type_compat o item = Ok dtype ->
  common_dtype o item dtype ->
  exists r h' ro,
    retry_insert (S depth) self o loc item h = Return r h'
    /\ h' !! r = Some ro
    /\ length (values_of ro) = S (length (values_of o))
    /\ values_of ro !! p = Some item.
Proof.
  intros Hself Hp Hhook Hcommon.
  destruct (Hcommon h self Hself)
    as (cast & h1 & co & Hcast & Hco & Hlen & Htakes).
  rewrite <- Hlen in *. specialize (Htakes loc p Hp).
  assert (Hp' : p <= length (values_of co))
    by (by eapply insert_position_bound).
  unfold retry_insert, insert_method. rewrite Hhook. simpl.
  erewrite (bind_Return (ret dtype)); [|reflexivity].
  rewrite (bind_Return _ _ _ _ _ Hcast).
  rewrite (bind_Return _ _ _ _ _ (deref_Some _ _ _ Hco)).
  destruct (is_extension_index (ob_type co)).
  - destruct Htakes as ((data_cls & Hcls & Hdata) & Hins).
    cbn [insert].
    rewrite (bind_Return _ _ _ _ _ (deref_Some _ _ _ Hco)).
    rewrite Hins.
    erewrite _simple_new_ok by (first [exact Hcls | exact Hdata]).
    eexists _, _, _. split; [reflexivity|].
    split; [apply alloc_lookup|]. unfold values_of. simpl.
    split; [apply insert_at_length|by apply insert_at_lookup].
  - destruct Htakes as (new_values & Hins & Hvalues).
    unfold Index_insert.
    rewrite (bind_Return _ _ _ _ _ (deref_Some _ _ _ Hco)).
    rewrite Hins. simpl.
    erewrite (bind_Return (ret new_values)); [|reflexivity].
    rewrite Index_new_run.
    eexists _, _, _. split; [reflexivity|].
    split; [apply alloc_lookup|]. unfold values_of. simpl.
    rewrite Hvalues.
    split; [apply insert_at_length|by apply insert_at_lookup].
Qed.


Lemma issubclass_refl C : issubclass C (tp_name C) = true.
Proof.
  unfold issubclass. apply bool_decide_eq_true_2, list_elem_of_here.
Qed.



End Insertion.

(** The hook of the reference implementation answers a common dtype for
    every index that is not of object dtype already: whatever the item, the
    index can be cast to object, and the object-dtype copy takes it. *)
Lemma Reference_common_dtype (o : IndexObj) (item : Scalar) :
  dtype_of o <> Np np_object ->
  @common_dtype Reference.collaborators o item (Np np_object).
Proof.
  intros Hd h self Hself.
  exists (length h),
         (h ++ [{| ob_type := Reference.Index_t;
                   _data := mkArr Reference.ndarray_t (Np np_object)
                              (values_of o);
                   _name := _name o; _cache := ∅ |}]).
  eexists. split; [|split; [apply alloc_lookup|split; [reflexivity|]]].
  - unfold astype, pandas_dtype.
    rewrite (bind_Return _ _ _ _ _ (deref_Some _ _ _ Hself)).
    unfold is_dtype_equal. rewrite bool_decide_eq_false_2 by exact Hd.
    replace (is_np_dtype (arr_dtype (_data o)) && is_np_dtype (Np np_object)
             && bool_decide (dtype_kind (Np np_object) = Some "M")
             && negb (bool_decide (Np np_object = Np (np_datetime64 unit_ns))))
      with false by (by destruct (is_np_dtype _)).
    simpl. unfold Reference.astype.
    rewrite bool_decide_eq_false_2 by exact Hd. reflexivity.
  - intros loc p Hp. unfold values_of in *. cbn [_data arr_values ob_type] in *.
    change (is_extension_index Reference.Index_t) with false. cbv iota.
    exists (mkArr Reference.ndarray_t (Np np_object)
              (insert_at p item (arr_values (_data o)))).
    split; [|reflexivity].
    change (@Index_insert_values Reference.collaborators)
      with Reference.insert_values.
    unfold Reference.insert_values. cbn [_data arr_values].
    rewrite Hp. reflexivity.
Qed.

(** The hook of the reference implementation answers object whenever the
    backing array has refused the item with a ValueError or TypeError. *)
Lemma Reference_hook_after_refusal (o : IndexObj) loc item msg :
  @ea_insert Reference.collaborators (_data o) loc item = Err (ValueError msg)
  \/ @ea_insert Reference.collaborators (_data o) loc item
     = Err (TypeError msg) ->
  @_find_common_type_compat Reference.collaborators o item
  = Ok (Np np_object).
Proof.
  simpl.
  unfold Reference.insert, Reference.validate_setitem_value,
    Reference.find_common_type_compat.
  destruct (Reference.accepts (_data o) item); [|reflexivity].
  destruct (bool_decide _);
    destruct (insert_position loc _); intros [Hrun | Hrun];
    discriminate Hrun.
Qed.

(** Over the reference implementation the retry needs no assumption: an
    item the backing array of an index refuses with a ValueError or
    TypeError, at a position in range, ends up in a new index one element
    longer, at the target position. *)
Lemma Reference_insert_in_range (h : heap) self o loc item p depth :
  h !! self = Some o ->
  dtype_of o <> Np np_object ->
  (exists msg,
     @ea_insert Reference.collaborators (_data o) loc item
     = Err (ValueError msg)
     \/ @ea_insert Reference.collaborators (_data o) loc item
        = Err (TypeError msg)) ->
  insert_position loc (length (values_of o)) = Some p ->
  exists r h' ro,
    @insert Reference.collaborators (S (S depth)) self loc item h
    = Return r h'
    /\ h' !! r = Some ro
    /\ length (values_of ro) = S (length (values_of o))
    /\ values_of ro !! p = Some item.
Proof.
  intros Hself Hd Hfail Hp.
  rewrite (insert_refused_retries _ _ _ _ _ _ Hself Hfail).
  destruct Hfail as (msg & Hfail).
  eapply retry_insert_returns; [exact Hself | exact Hp | |].
  - by eapply Reference_hook_after_refusal.
  - by apply Reference_common_dtype.
Qed.




(** Witness of C4: the sample datetime index against itself, against a
    timedelta index, and against an instance of its subclass. *)
Lemma equals_identity_type_then_data_witness :
  @equals Reference.collaborators 0 (VIndex 0) Sample.store0
  = Return true Sample.store0
  /\ @equals Reference.collaborators 0 (VIndex 1) Sample.store0
     = Return false Sample.store0
  /\ @equals Reference.collaborators 0 (VIndex 8) Sample.store0
     = Return (Reference.equals Sample.dates Sample.dates) Sample.store0.
Proof.
  destruct (@equals_identity_type_then_data Reference.collaborators)
    as (Hid & Hother & _ & Hsame).
  split; [apply Hid|]. split.
  - apply (Hother Sample.store0 0 1 Sample.dti Sample.tdi_x);
      [reflexivity | reflexivity | discriminate | reflexivity].
  - apply (Hsame Sample.store0 0 8 Sample.dti Sample.my_dti);
      [reflexivity | reflexivity | discriminate | reflexivity].
Defined.

(** ** A run of the model *)

(** Inserting into the sample index [10, 20, 30] at position 1 and deleting
    position 1 of the result gives back an index equal to the original. *)
Example insert_then_delete_scenario :
  exists inserted h1 deleted h2 i d,
    @insert Reference.collaborators 1 0 1 (STimestamp 15) Sample.store0
    = Return inserted h1
    /\ h1 !! inserted = Some i
    /\ values_of i
       = [STimestamp 10; STimestamp 15; STimestamp 20; STimestamp 30]
    /\ @delete Reference.collaborators inserted (Many [1%Z]) h1
       = Return deleted h2
    /\ h2 !! deleted = Some d
    /\ values_of d = [STimestamp 10; STimestamp 20; STimestamp 30]
    /\ @equals Reference.collaborators deleted (VIndex 0) h2
       = Return true h2.
Proof.
  eexists _, _, _, _, _, _. repeat split; reflexivity.
Qed.

(** * Further properties of the module *)

(** ** The class decorator *)

Section Decorator.
Context `{Collaborators}.

Lemma inherit_from_data_outcome name delegate cache wrap :
  (exists meth, inherit_from_data name delegate cache wrap = Ok meth
                /\ is_Some (delegate name))
  \/ (inherit_from_data name delegate cache wrap = Err (AttributeError name)
      /\ delegate name = None).
Proof.
  unfold inherit_from_data.
  destruct (delegate name) as [[doc getter setter|v|doc attr]|]; eauto.
  destruct cache; eauto.
Qed.

Lemma inherit_names_frame names delegate cache wrap :
  forall (cls cls' : gmap string Member) name,
    inherit_names names delegate cache wrap cls = Ok cls' ->
    name ∉ names ->
    cls' !! name = cls !! name.
Proof.
  induction names as [|first rest IH]; intros cls cls' name Hrun Hnot.
  - simpl in Hrun. by injection Hrun as <-.
  - simpl in Hrun.
    destruct (inherit_from_data first delegate cache wrap) as [m|e];
      [|discriminate].
    apply not_elem_of_cons in Hnot as [Hne Hnot].
    rewrite (IH _ _ _ Hrun Hnot). by rewrite lookup_insert_ne.
Qed.

Lemma inherit_names_total names delegate cache wrap :
  forall cls : gmap string Member,
    Forall (fun name => is_Some (delegate name)) names ->
    exists cls', inherit_names names delegate cache wrap cls = Ok cls'.
Proof.
  induction names as [|first rest IH]; intros cls Hall; simpl; [eauto|].
  apply Forall_cons in Hall as [[attr Hfirst] Hrest].
  destruct (inherit_from_data_outcome first delegate cache wrap)
    as [(meth & -> & _)|[_ Hnone]]; [|congruence].
  by apply IH.
Qed.

Lemma inherit_names_missing names delegate cache wrap :
  forall (cls : gmap string Member) e,
    inherit_names names delegate cache wrap cls = Err e ->
    exists missing, e = AttributeError missing
                    /\ missing ∈ names /\ delegate missing = None.
Proof.
  induction names as [|first rest IH]; intros cls e Hrun; simpl in Hrun;
    [discriminate|].
  destruct (inherit_from_data_outcome first delegate cache wrap)
    as [(meth & Hok & _)|[Herr Hnone]].
  - rewrite Hok in Hrun.
    destruct (IH _ _ Hrun) as (missing & -> & Hin & Hmiss).
    exists missing. split; [reflexivity|]. split; [by right|exact Hmiss].
  - rewrite Herr in Hrun. injection Hrun as <-.
    exists first. split; [reflexivity|]. split; [by left|exact Hnone].
Qed.

(** X1: [inherit_names] pins exactly the listed names.  When every listed
    name is an attribute of the delegate it succeeds, each listed name then
    holds what [inherit_from_data] makes of it (also when the name is listed
    twice or was bound before), and every other attribute of the class is
    as it was.  It fails only with the AttributeError of a listed name the
    delegate lacks, and it does fail when there is one. *)
Theorem inherit_names_pins_exactly_the_names :
  forall names delegate cache wrap (cls : gmap string Member),
    (Forall (fun name => is_Some (delegate name)) names ->
     exists cls',
       inherit_names names delegate cache wrap cls = Ok cls'
       /\ (forall name, name ∈ names ->
             exists meth,
               inherit_from_data name delegate cache wrap = Ok meth
               /\ cls' !! name = Some meth)
       /\ (forall name, name ∉ names -> cls' !! name = cls !! name))
    /\
    (forall name, name ∈ names -> delegate name = None ->
     exists missing,
       inherit_names names delegate cache wrap cls
       = Err (AttributeError missing)
       /\ missing ∈ names /\ delegate missing = None).
Proof.
  intros names delegate cache wrap cls. split.
  - intros Hall.
    destruct (inherit_names_total names delegate cache wrap cls Hall)
      as [cls' Hrun].
    exists cls'. split; [exact Hrun|]. split.
    + intros name Hin.
      destruct (inherit_from_data_outcome name delegate cache wrap)
        as [(meth & Hok & _)|[_ Hnone]].
      * exists meth. split; [exact Hok|].
        eapply inherit_names_keeps; eauto.
      * rewrite Forall_forall in Hall. apply Hall in Hin as [attr Hattr].
        congruence.
    + intros name Hnot. by eapply inherit_names_frame.
  - intros name Hin Hnone.
    destruct (inherit_names names delegate cache wrap cls) as [cls'|e] eqn:Hrun.
    + exfalso.
      assert (Hall : forall n, n ∈ names -> is_Some (delegate n)).
      { clear name Hin Hnone. revert cls cls' Hrun.
        induction names as [|first rest IH]; intros cls cls' Hrun n Hn.
        - by apply elem_of_nil in Hn.
        - simpl in Hrun.
          destruct (inherit_from_data_outcome first delegate cache wrap)
            as [(meth & Hok & Hsome)|[Herr _]].
          + rewrite Hok in Hrun.
            apply elem_of_cons in Hn as [->|Hn]; [exact Hsome|].
            by eapply IH.
          + rewrite Herr in Hrun. discriminate. }
      apply Hall in Hin as [attr Hattr]. congruence.
    + destruct (inherit_names_missing _ _ _ _ _ _ Hrun)
        as (missing & -> & Hin' & Hmiss).
      eauto.
Qed.

End Decorator.

(** Witness of X1: decorating a class that already has a [name] attribute
    with the two sample attributes of the categorical array. *)
Lemma inherit_names_pins_exactly_the_names_witness :
  exists cls',
    @inherit_names Reference.collaborators
      ["categories"; "remove_unused_categories"]
      Sample.categorical_methods false true
      {["name" := Plain (VScalar (SStr "x"))]} = Ok cls'
    /\ (exists meth,
          @inherit_from_data Reference.collaborators "categories"
            Sample.categorical_methods false true = Ok meth
          /\ cls' !! "categories" = Some meth)
    /\ cls' !! "name" = Some (Plain (VScalar (SStr "x"))).
Proof.
  destruct (@inherit_names_pins_exactly_the_names Reference.collaborators
              ["categories"; "remove_unused_categories"]
              Sample.categorical_methods false true
              {["name" := Plain (VScalar (SStr "x"))]})
    as [Hall _].
  destruct Hall as (cls' & Hrun & Hbound & Hframe).
  - repeat constructor; eexists; reflexivity.
  - exists cls'. split; [exact Hrun|]. split.
    + apply Hbound. apply list_elem_of_here.
    + rewrite Hframe; [apply lookup_singleton_eq|].
      rewrite !not_elem_of_cons. repeat split; try discriminate.
      apply not_elem_of_nil.
Defined.

(** ** Wrapped delegation *)

Section Wrapping.
Context `{Collaborators}.

Lemma Index_ctor_new (h : heap) v name l h' :
  Index_ctor v name h = Return l h' -> new_instance h l h'.
Proof.
  intros Hrun. apply Index_ctor_alloc in Hrun as [-> [x ->]].
  apply alloc_new.
Qed.

Lemma wrap_inherited_shape (h : heap) self result v h' :
  wrap_inherited self result h = Return v h' ->
  (exists l, v = VIndex l /\ new_instance h l h')
  \/ (exists columns, v = VDataFrame columns (Some self) /\ h' = h).
Proof.
  unfold wrap_inherited. intros Hrun.
  apply bind_inv_Return in Hrun as (o & h0 & Hd & Hrun).
  apply deref_inv in Hd as [-> Hself].
  assert (Hctor : forall (c : M loc),
            allocates c ->
            (l <- c;; ret (VIndex l)) h = Return v h' ->
            exists l, v = VIndex l /\ new_instance h l h').
  { intros c Hc Hv.
    apply bind_inv_Return in Hv as (l & h1 & Hl & Hret).
    cbv beta delta [ret] in Hret. injection Hret as <- <-.
    exists l. split; [reflexivity|]. by apply Hc. }
  assert (Hcall : forall name, allocates (Index_ctor result name)).
  { intros name h1 l h2. apply Index_ctor_new. }
  destruct result as [l| | columns index|a| | | |];
    try (left; eapply Hctor; [apply Hcall|exact Hrun]).
  - right. cbv beta delta [ret] in Hrun. injection Hrun as <- <-. eauto.
  - left. destruct (issubclass _ _).
    + eapply Hctor; [apply _simple_new_allocates|exact Hrun].
    + eapply Hctor; [apply Hcall|exact Hrun].
Qed.

(** X2: with [wrap=True], a method or property getter that
    [inherit_from_data] makes never hands the caller a raw array or an
    index that already existed: whatever the array attribute returns, the
    result is a newly created index, or the frame the array returned with
    [self] set as its index (the store then being as it was). *)
Theorem wrapped_member_returns_new_index_or_frame :
  forall name (delegate : string -> option Attr) (h : heap) (self : loc) v h',
    (forall doc attr call cache args (kwargs : gmap string PyVal),
       delegate name = Some (AttrCallable doc attr) ->
       inherit_from_data name delegate cache true = Ok (Method name doc call) ->
       call self args kwargs h = Return v h' ->
       (exists l, v = VIndex l /\ new_instance h l h')
       \/ (exists columns, v = VDataFrame columns (Some self) /\ h' = h))
    /\
    (forall doc getter setter fget fset,
       delegate name = Some (AttrProperty doc getter setter) ->
       inherit_from_data name delegate false true
       = Ok (Property name doc fget fset) ->
       fget self h = Return v h' ->
       (exists l, v = VIndex l /\ new_instance h l h')
       \/ (exists columns, v = VDataFrame columns (Some self) /\ h' = h)).
Proof.
  intros name delegate h self v h'. split.
  - intros doc attr call cache args kwargs Hattr Hmeth Hrun.
    unfold inherit_from_data in Hmeth. rewrite Hattr in Hmeth.
    injection Hmeth as <-.
    apply bind_inv_Return in Hrun as (o & h0 & Hd & Hrun).
    apply deref_inv in Hd as [-> Hself].
    destruct (bool_decide _); [discriminate Hrun|].
    apply bind_inv_Return in Hrun as (result & h0 & Hres & Hrun).
    apply lift_inv in Hres as [_ ->].
    by eapply wrap_inherited_shape.
  - intros doc getter setter fget fset Hattr Hmeth Hrun.
    unfold inherit_from_data in Hmeth. rewrite Hattr in Hmeth.
    injection Hmeth as <- _.
    apply bind_inv_Return in Hrun as (o & h0 & Hd & Hrun).
    apply deref_inv in Hd as [-> Hself].
    apply bind_inv_Return in Hrun as (result & h0 & Hres & Hrun).
    apply lift_inv in Hres as [_ ->].
    by eapply wrap_inherited_shape.
Qed.

End Wrapping.

(** Witness of X2: the wrapped [remove_unused_categories] on the sample
    categorical index returns the index at the first free address. *)
Lemma wrapped_member_returns_new_index_or_frame_witness :
  exists call h',
    @inherit_from_data Reference.collaborators "remove_unused_categories"
      Sample.categorical_methods false true
    = Ok (Method "remove_unused_categories"
            "Remove categories which are not used." call)
    /\ call 4 [] ∅ Sample.store0 = Return (VIndex 9) h'
    /\ ((exists l, VIndex 9 = VIndex l /\ new_instance Sample.store0 l h')
        \/ (exists columns,
              VIndex 9 = VDataFrame columns (Some 4) /\ h' = Sample.store0)).
Proof.
  eexists _, _. split; [reflexivity|]. split; [reflexivity|].
  destruct (@wrapped_member_returns_new_index_or_frame
              Reference.collaborators "remove_unused_categories"
              Sample.categorical_methods Sample.store0 4 (VIndex 9)
              (Sample.store0 ++ [Sample.ci])) as [Hmethod _].
  eapply (Hmethod _ _ _ false [] ∅); reflexivity.
Defined.

(** ** More on the operators *)

Section OperatorsMore.
Context `{Collaborators}.

(** X3: a comparison sees only the data of its operand: comparing with an
    index whose class keeps its values in [_data], with a series over the
    same values, or with the bare array gives the same outcome, whatever
    the names; comparing with an index whose class keeps no [_data] (a
    MultiIndex) raises AttributeError before the backing array is asked;
    and a comparison never changes the store, whether it returns or
    raises. *)
Theorem comparison_sees_only_the_data :
  forall opname (h : heap) (self other : loc) (p : IndexObj) name,
    h !! other = Some p ->
    (has_data_attribute (ob_type p) = true ->
     _make_wrapped_comparison_op opname self (VIndex other) h
     = _make_wrapped_comparison_op opname self (VArray (_data p)) h)
    /\ (has_data_attribute (ob_type p) = false ->
        _make_wrapped_comparison_op opname self (VIndex other) h
        = Raise (AttributeError ("'" ++ tp_name (ob_type p)
                                 ++ "' object has no attribute '_data'")) h)
    /\ _make_wrapped_comparison_op opname self (VSeries (_data p) name) h
       = _make_wrapped_comparison_op opname self (VArray (_data p)) h
    /\ forall operand,
         outcome_heap (_make_wrapped_comparison_op opname self operand h) = h.
Proof.
  intros opname h self other p name Hother. split; [|split; [|split]].
  - intros Hdata.
    unfold _make_wrapped_comparison_op, _maybe_unwrap_index, getattr_data.
    unfold bind at 1. unfold bind at 1.
    rewrite (deref_Some _ _ _ Hother), Hdata. reflexivity.
  - intros Hdata.
    unfold _make_wrapped_comparison_op, _maybe_unwrap_index, getattr_data.
    unfold bind at 1. unfold bind at 1.
    rewrite (deref_Some _ _ _ Hother), Hdata. reflexivity.
  - reflexivity.
  - intros operand. unfold _make_wrapped_comparison_op.
    assert (Hrest : forall v,
              outcome_heap
                ((o <- deref self;;
                  match ea_getattr (_data o) opname with
                  | Some op => lift (op v)
                  | None => raise (AttributeError opname)
                  end) h) = h).
    { intros v. unfold bind, deref.
      destruct (h !! self) as [o|]; [|reflexivity].
      destruct (ea_getattr (_data o) opname) as [op|]; [|reflexivity].
      destruct (op v); reflexivity. }
    destruct operand as [l| | | | | | |]; try apply Hrest.
    unfold _maybe_unwrap_index, bind at 1. unfold bind at 1, deref at 1.
    destruct (h !! l) as [q|]; [|reflexivity].
    destruct (getattr_data q) as [data|e]; [apply Hrest|reflexivity].
Qed.

End OperatorsMore.

(** Witness of X3: the sample datetime index compared with the timedelta
    index, with the MultiIndex, and with a series over the timedelta
    values. *)
Lemma comparison_sees_only_the_data_witness :
  @_make_wrapped_comparison_op Reference.collaborators "__eq__" 0 (VIndex 1)
    Sample.store0
  = @_make_wrapped_comparison_op Reference.collaborators "__eq__" 0
      (VArray Sample.deltas) Sample.store0
  /\ @_make_wrapped_comparison_op Reference.collaborators "__eq__" 0
       (VIndex 7) Sample.store0
     = Raise (AttributeError "'MultiIndex' object has no attribute '_data'")
         Sample.store0
  /\ @_make_wrapped_comparison_op Reference.collaborators "__eq__" 0
       (VSeries Sample.deltas (Some "s")) Sample.store0
     = @_make_wrapped_comparison_op Reference.collaborators "__eq__" 0
         (VArray Sample.deltas) Sample.store0.
Proof.
  destruct (@comparison_sees_only_the_data Reference.collaborators "__eq__"
              Sample.store0 0 1 Sample.tdi_x (Some "s") eq_refl)
    as (Hindex & _ & Hseries & _).
  destruct (@comparison_sees_only_the_data Reference.collaborators "__eq__"
              Sample.store0 0 7 Sample.mi None eq_refl)
    as (_ & Hmulti & _).
  split; [exact (Hindex eq_refl)|].
  split; [exact (Hmulti eq_refl)|exact Hseries].
Defined.

Section ArithmeticResults.
Context `{Collaborators}.

Lemma insert_last (h : heap) (x y : IndexObj) :
  <[length h := y]> (h ++ [x]) = h ++ [y].
Proof.
  rewrite insert_app_r_alt by lia.
  replace (length h - length h) with 0 by lia. reflexivity.
Qed.

(** The arithmetic wrapper once the operand passes the opening test and
    the array has the operator: the array method is called on the unwrapped
    operand and its result is wrapped. *)
Lemma arith_op_calls_array (h : heap) self other o opname meth unwrapped :
  h !! self = Some o ->
  is_object_index_subclass other h = Return false h ->
  ea_getattr (_data o) opname = Some meth ->
  _maybe_unwrap_index other h = Return unwrapped h ->
  _make_wrapped_arith_op opname self other h
  = (result <- lift (meth unwrapped);;
     _wrap_arithmetic_op self other result) h.
Proof.
  intros Hself Hdefer Hattr Hunwrap. unfold _make_wrapped_arith_op.
  rewrite (bind_Return _ _ _ _ _ Hdefer).
  rewrite (bind_Return _ _ _ _ _ (deref_Some _ _ _ Hself)).
  rewrite Hattr. rewrite (bind_Return _ _ _ _ _ Hunwrap). reflexivity.
Qed.

(** X4: when the array method returns a bare array, the arithmetic
    operator returns one new index, at the first free address, whose data
    is that array, whose class is the one the base constructor picks for
    the array's dtype and whose name is the reconciled name of the
    operands; every object that was in the store, the operands included,
    is left exactly as it was. *)
Theorem arith_array_result_is_one_new_index :
  forall (h : heap) (self : loc) (other unwrapped : PyVal) (o : IndexObj)
         opname meth (a : Arr) (right : option Name),
    h !! self = Some o ->
    is_object_index_subclass other h = Return false h ->
    ea_getattr (_data o) opname = Some meth ->
    _maybe_unwrap_index other h = Return unwrapped h ->
    operand_name_in h other = Some right ->
    meth unwrapped = Ok (VArray a) ->
    _make_wrapped_arith_op opname self other h
    = Return (VIndex (length h))
        (h ++ [{| ob_type := _dtype_to_subclass (arr_dtype a);
                  _data := a;
                  _name := reconcile_names (_name o) right;
                  _cache := ∅ |}]).
Proof.
  intros h self other unwrapped o opname meth a right
         Hself Hdefer Hattr Hunwrap Hright Hmeth.
  rewrite (arith_op_calls_array _ _ _ _ _ _ _ Hself Hdefer Hattr Hunwrap).
  rewrite Hmeth. simpl.
  erewrite (bind_Return (ret (VArray a))); [|reflexivity].
  cbn [_wrap_arithmetic_op Index_ctor].
  rewrite (bind_Return _ _ _ _ _ (Index_new_run h a None)).
  set (x := {| ob_type := _dtype_to_subclass (arr_dtype a); _data := a;
               _name := None; _cache := ∅ |}).
  assert (Hself1 : (h ++ [x]) !! self = Some o)
    by (by apply lookup_app_l_Some).
  rewrite (bind_Return _ _ _ _ _
             (get_op_result_name_run _ _ _ _ _ Hself1
                (operand_name_in_app _ x _ _ Hright))).
  unfold set_name.
  unfold bind at 1. unfold bind at 1.
  rewrite (deref_Some _ _ _ (alloc_lookup h x)).
  unfold store, ret. rewrite insert_last. reflexivity.
Qed.

(** X5: the other shapes of an array method's answer.  NotImplemented is
    handed on as it is and the store is untouched; a tuple that is not a
    pair is refused with an AssertionError before anything is wrapped; and
    an index that already exists is not copied: it is returned itself,
    renamed in place to the reconciled name. *)
Theorem arith_other_results :
  forall (h : heap) (self : loc) (other unwrapped : PyVal) (o : IndexObj)
         opname meth,
    h !! self = Some o ->
    is_object_index_subclass other h = Return false h ->
    ea_getattr (_data o) opname = Some meth ->
    _maybe_unwrap_index other h = Return unwrapped h ->
    (meth unwrapped = Ok VNotImplemented ->
     _make_wrapped_arith_op opname self other h = Return VNotImplemented h)
    /\
    (forall xs, meth unwrapped = Ok (VTuple xs) -> length xs <> 2 ->
     _make_wrapped_arith_op opname self other h = Raise AssertionError h)
    /\
    (forall l lo right,
       meth unwrapped = Ok (VIndex l) ->
       h !! l = Some lo ->
       operand_name_in h other = Some right ->
       _make_wrapped_arith_op opname self other h
       = Return (VIndex l)
           (<[l := {| ob_type := ob_type lo; _data := _data lo;
                      _name := reconcile_names (_name o) right;
                      _cache := _cache lo |}]> h)).
Proof.
  intros h self other unwrapped o opname meth Hself Hdefer Hattr Hunwrap.
  rewrite (arith_op_calls_array _ _ _ _ _ _ _ Hself Hdefer Hattr Hunwrap).
  split; [|split].
  - intros ->. reflexivity.
  - intros xs -> Hlen.
    destruct xs as [|r0 [|r1 [|r2 xs]]]; try reflexivity.
    simpl in Hlen. congruence.
  - intros l lo right -> Hl Hright. simpl.
    erewrite (bind_Return (ret (VIndex l))); [|reflexivity].
    cbn [_wrap_arithmetic_op].
    erewrite (bind_Return (ret l)); [|reflexivity].
    rewrite (bind_Return _ _ _ _ _
               (get_op_result_name_run _ _ _ _ _ Hself Hright)).
    unfold set_name. unfold bind at 1. unfold bind at 1.
    rewrite (deref_Some _ _ _ Hl). reflexivity.
Qed.

End ArithmeticResults.

(** Witness of X4: the sample datetime index plus the timedelta index named
    alike. *)
Lemma arith_array_result_is_one_new_index_witness :
  @_make_wrapped_arith_op Reference.collaborators "__add__" 0 (VIndex 1)
    Sample.store0
  = Return (VIndex 9)
      (Sample.store0
       ++ [mkIndex Reference.DatetimeIndex_t
             (mkArr Reference.DatetimeArray_t Sample.M8ns
                [STimestamp 11; STimestamp 22; STimestamp 33])
             (Some "x") ∅]).
Proof.
  apply (@arith_array_result_is_one_new_index Reference.collaborators
           Sample.store0 0 (VIndex 1) (VArray Sample.deltas) Sample.dti
           "__add__" (Reference.arithmetic "__add__" Sample.dates)
           (mkArr Reference.DatetimeArray_t Sample.M8ns
              [STimestamp 11; STimestamp 22; STimestamp 33])
           (Some (Some "x")));
    reflexivity.
Defined.

(** Witness of X5: the sample datetime index times a scalar, which the
    reference arrays answer with NotImplemented. *)
Lemma arith_other_results_witness :
  @_make_wrapped_arith_op Reference.collaborators "__mul__" 0
    (VScalar (SInt 2)) Sample.store0
  = Return VNotImplemented Sample.store0.
Proof.
  destruct (@arith_other_results Reference.collaborators Sample.store0 0
              (VScalar (SInt 2)) (VScalar (SInt 2)) Sample.dti "__mul__"
              (Reference.arithmetic "__mul__" Sample.dates)
              eq_refl eq_refl eq_refl eq_refl) as (Hni & _).
  apply Hni. reflexivity.
Defined.

(** ** What the structural operations keep *)

Section Kept.
Context `{Collaborators}.

Lemma _simple_new_object (h : heap) cls array name r h' :
  _simple_new cls array name h = Return r h' ->
  exists ro, h' !! r = Some ro
             /\ ob_type ro = cls /\ _data ro = array /\ _name ro = name
             /\ index_ok ro.
Proof.
  unfold _simple_new.
  destruct (tp_data_cls cls) as [data_cls|] eqn:Hcls; [|discriminate].
  destruct (issubclass (arr_type array) data_cls) eqn:Hsub; [|discriminate].
  intros [= <- <-]. eexists. split; [apply alloc_lookup|].
  repeat split. exists data_cls. auto.
Qed.

(** X6: whenever [delete] or [repeat] returns, the result is an index of
    the class and name of the original whose data is what the array made,
    and it satisfies the constructor's invariant (its data is an instance
    of the array class its class pins).  When the array hands back an
    array of a class the index class does not accept, the operation raises
    AssertionError instead of building an ill-formed index. *)
Theorem delete_repeat_keep_class_and_name :
  forall (h : heap) (self : loc) (o : IndexObj),
    h !! self = Some o ->
    (forall loc r h',
       delete self loc h = Return r h' ->
       exists ro, h' !! r = Some ro
                  /\ ob_type ro = ob_type o /\ _name ro = _name o
                  /\ ea_delete (_data o) loc = Ok (_data ro)
                  /\ index_ok ro)
    /\
    (forall repeats axis r h',
       repeat self repeats axis h = Return r h' ->
       exists ro, h' !! r = Some ro
                  /\ ob_type ro = ob_type o /\ _name ro = _name o
                  /\ ea_repeat (_data o) repeats axis = Ok (_data ro)
                  /\ index_ok ro)
    /\
    (forall loc arr data_cls,
       ea_delete (_data o) loc = Ok arr ->
       tp_data_cls (ob_type o) = Some data_cls ->
       issubclass (arr_type arr) data_cls = false ->
       delete self loc h = Raise AssertionError h).
Proof.
  intros h self o Hself. split; [|split].
  - intros loc r h' Hrun. unfold delete in Hrun.
    rewrite (bind_Return _ _ _ _ _ (deref_Some _ _ _ Hself)) in Hrun.
    apply bind_inv_Return in Hrun as (arr & h0 & Harr & Hnew).
    apply lift_inv in Harr as [Harr ->].
    apply _simple_new_object in Hnew as (ro & Hr & Ht & Hd & Hn & Hok).
    exists ro. subst. auto.
  - intros repeats axis r h' Hrun. unfold repeat in Hrun.
    apply bind_inv_Return in Hrun as (u & h0 & Hax & Hrun).
    apply lift_inv in Hax as [_ ->].
    rewrite (bind_Return _ _ _ _ _ (deref_Some _ _ _ Hself)) in Hrun.
    apply bind_inv_Return in Hrun as (arr & h0 & Harr & Hnew).
    apply lift_inv in Harr as [Harr ->].
    apply _simple_new_object in Hnew as (ro & Hr & Ht & Hd & Hn & Hok).
    exists ro. subst. auto.
  - intros loc arr data_cls Harr Hcls Hsub. unfold delete.
    rewrite (bind_Return _ _ _ _ _ (deref_Some _ _ _ Hself)).
    rewrite Harr. simpl.
    erewrite (bind_Return (ret arr)); [|reflexivity].
    unfold _simple_new. rewrite Hcls, Hsub. reflexivity.
Qed.

(** X7: the name survives every path of [insert] and of [astype]: the
    in-dtype insert, the retry after a cast (however many casts it takes)
    and the cast itself all return an index that carries the name of the
    original. *)
Theorem insert_and_astype_keep_the_name :
  forall (h : heap) (self : loc) (o : IndexObj),
    h !! self = Some o ->
    (forall depth loc item r h',
       insert depth self loc item h = Return r h' ->
       exists ro, h' !! r = Some ro /\ _name ro = _name o)
    /\
    (forall dtype copy r h',
       astype self dtype copy h = Return r h' ->
       exists ro, h' !! r = Some ro /\ _name ro = _name o).
Proof.
  intros h self o Hself. split; [|intros; by eapply astype_keeps_name].
  intros depth. revert h self o Hself.
  induction depth as [|depth IH]; intros h self o Hself loc item r h' Hrun;
    simpl in Hrun; [discriminate Hrun|].
  rewrite (bind_Return _ _ _ _ _ (deref_Some _ _ _ Hself)) in Hrun.
  assert (Hretry :
    (dtype <- lift (_find_common_type_compat o item);;
     cast <- astype self dtype true;;
     c <- deref cast;;
     if is_extension_index (ob_type c)
     then insert depth cast loc item
     else Index_insert cast loc item) h = Return r h' ->
    exists ro, h' !! r = Some ro /\ _name ro = _name o).
  { clear Hrun. intros Hrun.
    apply bind_inv_Return in Hrun as (dtype & h0 & Hhook & Hrun).
    apply lift_inv in Hhook as [_ ->].
    apply bind_inv_Return in Hrun as (cast & h1 & Hcast & Hrun).
    destruct (astype_keeps_name _ _ _ _ _ _ _ Hself Hcast)
      as (co & Hco & Hname).
    rewrite (bind_Return _ _ _ _ _ (deref_Some _ _ _ Hco)) in Hrun.
    rewrite <- Hname.
    destruct (is_extension_index (ob_type co)).
    - by apply (IH _ _ _ Hco loc item).
    - unfold Index_insert in Hrun.
      rewrite (bind_Return _ _ _ _ _ (deref_Some _ _ _ Hco)) in Hrun.
      apply bind_inv_Return in Hrun as (a & h2 & Hbase & Hnew).
      apply lift_inv in Hbase as [_ ->].
      rewrite Index_new_run in Hnew. injection Hnew as <- <-.
      eexists. split; [apply alloc_lookup|]. reflexivity. }
  destruct (ea_insert (_data o) loc item) as [a|e].
  - apply _simple_new_object in Hrun as (ro & Hr & _ & _ & Hn & _). eauto.
  - destruct e; try discriminate Hrun; by apply Hretry.
Qed.

(** X8: [equals] looks at nothing but identity, class and data: in two
    stores where the two indexes have the same class and the same data,
    it gives the same answer, whatever their names and caches. *)
Theorem equals_ignores_names :
  forall (h h' : heap) (x y : loc) (o p o' p' : IndexObj),
    h !! x = Some o -> h !! y = Some p ->
    h' !! x = Some o' -> h' !! y = Some p' ->
    ob_type o' = ob_type o -> _data o' = _data o ->
    ob_type p' = ob_type p -> _data p' = _data p ->
    exists b, equals x (VIndex y) h = Return b h
              /\ equals x (VIndex y) h' = Return b h'.
Proof.
  intros h h' x y o p o' p' Hx Hy Hx' Hy' Hto Hdo Htp Hdp.
  unfold equals, is_. case_bool_decide; [by exists true|].
  rewrite (bind_Return _ _ _ _ _ (deref_Some _ _ _ Hx)).
  rewrite (bind_Return _ _ _ _ _ (deref_Some _ _ _ Hy)).
  rewrite (bind_Return _ _ _ _ _ (deref_Some _ _ _ Hx')).
  rewrite (bind_Return _ _ _ _ _ (deref_Some _ _ _ Hy')).
  rewrite Hto, Hdo, Htp, Hdp.
  destruct (issubclass (ob_type p) (tp_name (ob_type o))); eauto.
Qed.

End Kept.

(** Witness of X6: deleting the middle of the sample datetime index. *)
Lemma delete_repeat_keep_class_and_name_witness :
  exists ro,
    outcome_heap (@delete Reference.collaborators 0 (One 1) Sample.store0)
    !! 9 = Some ro
    /\ ob_type ro = Reference.DatetimeIndex_t /\ _name ro = Some "x"
    /\ Reference.delete Sample.dates (One 1) = Ok (_data ro)
    /\ index_ok ro.
Proof.
  destruct (@delete_repeat_keep_class_and_name Reference.collaborators
              Sample.store0 0 Sample.dti eq_refl) as (Hdelete & _).
  apply (Hdelete (One 1) 9). reflexivity.
Defined.

(** Witness of X7: the string inserted into the sample datetime index
    lands in an object index that is still named "x". *)
Lemma insert_and_astype_keep_the_name_witness :
  exists ro,
    outcome_heap (@insert Reference.collaborators 2 0 1 (SStr "foo")
                    Sample.store0) !! 10 = Some ro
    /\ _name ro = Some "x".
Proof.
  destruct (@insert_and_astype_keep_the_name Reference.collaborators
              Sample.store0 0 Sample.dti eq_refl) as (Hinsert & _).
  apply (Hinsert 2 1%Z (SStr "foo") 10). reflexivity.
Defined.

(** Witness of X8: two timedelta indexes over the same data, named "x"
    and "y" in one store, "y" and unnamed in another. *)
Lemma equals_ignores_names_witness :
  exists b,
    @equals Reference.collaborators 1 (VIndex 2) Sample.store0
    = Return b Sample.store0
    /\ @equals Reference.collaborators 1 (VIndex 2)
         [Sample.dti; Sample.tdi_y; Sample.tdi_unnamed]
       = Return b [Sample.dti; Sample.tdi_y; Sample.tdi_unnamed].
Proof.
  apply (@equals_ignores_names Reference.collaborators Sample.store0
           [Sample.dti; Sample.tdi_y; Sample.tdi_unnamed] 1 2
           Sample.tdi_x Sample.tdi_y Sample.tdi_y Sample.tdi_unnamed);
    reflexivity.
Defined.

(** ** Engine targets *)

Section EngineTargets.
Context `{Collaborators} `{EngineCollaborators}.

(** X9: for an index of a subclass of [NDArrayBackedExtensionIndex],
    handing its own engine target back to [_from_join_target] never trips
    the dtype assertion: the round trip is exactly the array's buffer put
    back through [_from_backing_data], and it returns the original data
    whenever the array rebuilds itself from its own buffer.  A buffer of
    any other dtype is refused with AssertionError before the array is
    asked.  For any other [ExtensionIndex] the round trip goes through
    [np.asarray] and the array class's [_from_sequence], called with the
    dtype of the index. *)
Theorem engine_target_round_trip :
  forall (h : heap) (self : loc) (o : IndexObj),
    h !! self = Some o ->
    (issubclass (ob_type o) "NDArrayBackedExtensionIndex" = true ->
     (target <- engine_target_method self;;
      from_join_target_method self target) h
     = (buffer <- lift (ea_ndarray (_data o));;
        lift (ea_from_backing_data (_data o) buffer)) h
     /\ (forall buffer,
           ea_ndarray (_data o) = Ok buffer ->
           ea_from_backing_data (_data o) buffer = Ok (_data o) ->
           (target <- engine_target_method self;;
            from_join_target_method self target) h = Return (_data o) h)
     /\ (forall buffer result,
           ea_ndarray (_data o) = Ok buffer ->
           arr_dtype result <> arr_dtype buffer ->
           from_join_target_method self result h = Raise AssertionError h))
    /\
    (issubclass (ob_type o) "NDArrayBackedExtensionIndex" = false ->
     (target <- engine_target_method self;;
      from_join_target_method self target) h
     = (target <- lift (np_asarray (_data o));;
        lift (ea_from_sequence (arr_type (_data o)) target
                (arr_dtype (_data o)))) h).
Proof.
  intros h self o Hself.
  assert (Hround : issubclass (ob_type o) "NDArrayBackedExtensionIndex" = true ->
            (target <- engine_target_method self;;
             from_join_target_method self target) h
            = (buffer <- lift (ea_ndarray (_data o));;
               lift (ea_from_backing_data (_data o) buffer)) h).
  { intros Hnd.
    unfold engine_target_method, from_join_target_method,
      NDArrayBackedExtensionIndex._get_engine_target,
      NDArrayBackedExtensionIndex._from_join_target,
      bind, deref.
    rewrite Hself, Hnd, Hself.
    destruct (ea_ndarray (_data o)) as [buffer|e] eqn:Hbuf; simpl;
      [|reflexivity].
    unfold ret. rewrite Hself, Hnd, Hself, Hbuf. simpl.
    rewrite bool_decide_eq_true_2 by reflexivity. reflexivity. }
  split.
  - intros Hnd. split; [by apply Hround|]. split.
    + intros buffer Hbuf Hback. rewrite (Hround Hnd).
      unfold bind. rewrite Hbuf. simpl. rewrite Hback. reflexivity.
    + intros buffer result Hbuf Hne.
      unfold from_join_target_method,
        NDArrayBackedExtensionIndex._from_join_target, bind, deref.
      rewrite Hself, Hnd, Hself, Hbuf. simpl.
      rewrite bool_decide_eq_false_2 by assumption. reflexivity.
  - intros Hnd.
    unfold engine_target_method, from_join_target_method,
      ExtensionIndex._get_engine_target, ExtensionIndex._from_join_target,
      bind, deref.
    rewrite Hself, Hnd, Hself.
    destruct (np_asarray (_data o)) as [target|e]; simpl; [|reflexivity].
    unfold ret. rewrite Hself, Hnd, Hself. reflexivity.
Qed.

End EngineTargets.

(** Witness of X9: the sample period index, whose buffer holds the
    ordinals, and a buffer of timestamps offered to it. *)
Lemma engine_target_round_trip_witness :
  (target <- @engine_target_method ReferenceEngine.collaborators 6;;
   @from_join_target_method ReferenceEngine.collaborators 6 target)
    Sample.store0
  = Return Sample.days Sample.store0
  /\ @from_join_target_method ReferenceEngine.collaborators 6
       (mkArr Reference.ndarray_t Sample.M8ns [STimestamp 1; STimestamp 2])
       Sample.store0
     = Raise AssertionError Sample.store0.
Proof.
  destruct (@engine_target_round_trip ReferenceEngine.collaborators
              Sample.store0 6 Sample.pi eq_refl) as [Hnd _].
  destruct (Hnd eq_refl) as (_ & Hback & Hrefuse).
  split.
  - apply (Hback (mkArr Reference.ndarray_t (Np np_int64) [SInt 1; SInt 2]));
      reflexivity.
  - apply (Hrefuse (mkArr Reference.ndarray_t (Np np_int64) [SInt 1; SInt 2]));
      [reflexivity | discriminate].
Defined.

(** ** [map] *)

Section MapProperties.
Context `{Collaborators} `{EngineCollaborators}.

(** X10: [map] hands back what the mapper made of the whole index only
    when that is an index (returned as it is) or a bare ndarray (wrapped in
    a new index that carries no name).  In every other case -- the mapper
    raises, or returns anything else -- the outcome of [map] is the outcome
    of the retry on the index cast to object, run in the very store the
    mapper left behind.  The [na_action] argument has no influence on the
    outcome. *)
Theorem map_first_attempt_or_retry :
  forall depth (h : heap) (self : loc) (mapper : PyVal -> M PyVal)
         (na_action : option string),
    (forall l h1,
       mapper (VIndex self) h = Return (VIndex l) h1 ->
       ExtensionIndex.map (S depth) self mapper na_action h
       = Return (VIndex l) h1)
    /\
    (forall a h1,
       mapper (VIndex self) h = Return (VArray a) h1 ->
       issubclass (arr_type a) "ndarray" = true ->
       ExtensionIndex.map (S depth) self mapper na_action h
       = Return (VIndex (length h1))
           (h1 ++ [{| ob_type := _dtype_to_subclass (arr_dtype a);
                      _data := a; _name := None; _cache := ∅ |}]))
    /\
    (forall e h1,
       mapper (VIndex self) h = Raise e h1 ->
       ExtensionIndex.map (S depth) self mapper na_action h
       = map_retry depth self mapper h1)
    /\
    (forall v h1,
       mapper (VIndex self) h = Return v h1 ->
       (forall l, v <> VIndex l) ->
       (forall a, v = VArray a -> issubclass (arr_type a) "ndarray" = false) ->
       ExtensionIndex.map (S depth) self mapper na_action h
       = map_retry depth self mapper h1)
    /\
    ExtensionIndex.map (S depth) self mapper na_action h
    = ExtensionIndex.map (S depth) self mapper None h.
Proof.
  intros depth h self mapper na_action.
  split; [|split; [|split; [|split]]].
  - intros l h1 Hm. simpl. unfold try_except, bind. rewrite Hm. reflexivity.
  - intros a h1 Hm Hnd. simpl. unfold try_except, bind. rewrite Hm, Hnd.
    reflexivity.
  - intros e h1 Hm. simpl. unfold try_except, bind at 1. rewrite Hm.
    reflexivity.
  - intros v h1 Hm Hindex Hbuffer. simpl. unfold try_except, bind at 1.
    rewrite Hm.
    destruct v as [l|values name| |a|x|b|xs|]; try reflexivity.
    + by destruct (Hindex l).
    + unfold bind at 1. rewrite (Hbuffer a eq_refl). reflexivity.
  - reflexivity.
Qed.

End MapProperties.

(** Witness of X10: a mapper that returns the elements of the sample
    datetime index (named "x") in an object buffer gives a new index without
    a name; a mapper that only handles single timestamps raises on the
    whole index and is applied through the retry. *)
Lemma map_first_attempt_or_retry_witness :
  @ExtensionIndex.map Reference.collaborators ReferenceEngine.collaborators
    1 0 ReferenceEngine.to_buffer None Sample.store0
  = Return (VIndex 9)
      (Sample.store0
       ++ [mkIndex Reference.Index_t
             (mkArr Reference.ndarray_t (Np np_object)
                [STimestamp 10; STimestamp 20; STimestamp 30]) None ∅])
  /\ (exists l h',
        @ExtensionIndex.map Reference.collaborators
          ReferenceEngine.collaborators 1 0 ReferenceEngine.shift_by_one None
          Sample.store0 = Return (VIndex l) h'
        /\ (values_of <$> h' !! l)
           = Some [STimestamp 11; STimestamp 21; STimestamp 31]).
Proof.
  destruct (@map_first_attempt_or_retry Reference.collaborators
              ReferenceEngine.collaborators 0 Sample.store0 0
              ReferenceEngine.to_buffer None) as (_ & Hbuffer & _).
  destruct (@map_first_attempt_or_retry Reference.collaborators
              ReferenceEngine.collaborators 0 Sample.store0 0
              ReferenceEngine.shift_by_one None) as (_ & _ & Hraise & _).
  split.
  - apply (Hbuffer (mkArr Reference.ndarray_t (Np np_object)
                      [STimestamp 10; STimestamp 20; STimestamp 30])
             Sample.store0); reflexivity.
  - rewrite (Hraise (TypeError "unsupported operand") Sample.store0 eq_refl).
    eexists _, _. split; reflexivity.
Defined.

(** ** Insertion without a change of dtype *)

Section InDtypeInsertion.
Context `{Collaborators} `{!Contracts}.

Lemma delete_insert_at (p : nat) x (l : list Scalar) :
  p <= length l -> base.delete p (insert_at p x l) = l.
Proof.
  intros Hp. unfold insert_at.
  rewrite delete_take_drop.
  rewrite take_app_le by (rewrite length_take; lia).
  rewrite take_take, Nat.min_id.
  rewrite drop_app_ge by (rewrite length_take; lia).
  rewrite length_take.
  replace (S p - p `min` length l) with 1 by lia. simpl.
  rewrite drop_0. apply take_drop.
Qed.

(** X11: a value that [_validate_fill_value] accepts unchanged is inserted
    without any cast: at every position the array allows, [insert] returns
    a new index of the same class and name whose data has the same array
    class and dtype, with the value at the target position. *)
Theorem validated_value_inserts_in_dtype :
  forall (h : heap) (self : loc) (o : IndexObj) (loc : Z) (item : Scalar)
         (p depth : nat),
    h !! self = Some o ->
    index_ok o ->
    _validate_fill_value self item h = Return item h ->
    insert_position loc (length (values_of o)) = Some p ->
    insert (S depth) self loc item h
    = Return (length h)
        (h ++ [{| ob_type := ob_type o;
                  _data := with_values (_data o)
                             (insert_at p item (values_of o));
                  _name := _name o; _cache := ∅ |}]).
Proof.
  intros h self o loc item p depth Hself (data_cls & Hcls & Hsub) Hvalid Hpos.
  unfold _validate_fill_value in Hvalid.
  rewrite (bind_Return _ _ _ _ _ (deref_Some _ _ _ Hself)) in Hvalid.
  apply lift_inv in Hvalid as [Hvalid _].
  cbn [insert].
  rewrite (bind_Return _ _ _ _ _ (deref_Some _ _ _ Hself)).
  rewrite (insert_accepts _ _ _ _ Hvalid Hpos).
  by erewrite _simple_new_ok.
Qed.

(** X12: the round trip in the other direction.  When the array takes the
    item without a cast, deleting the position the item landed on gives an
    index equal to the original by [equals], in both directions; this holds
    for negative [loc] too, the position deleted being the one the insert
    resolved [loc] to. *)
Theorem insert_then_delete_recovers :
  forall (h : heap) (self : loc) (o : IndexObj) (loc : Z) (item : Scalar)
         (a : Arr) (depth : nat),
    h !! self = Some o ->
    index_ok o ->
    ea_insert (_data o) loc item = Ok a ->
    exists p r h1 d h2,
      insert_position loc (length (values_of o)) = Some p
      /\ insert (S depth) self loc item h = Return r h1
      /\ delete r (One (Z.of_nat p)) h1 = Return d h2
      /\ equals d (VIndex self) h2 = Return true h2
      /\ equals self (VIndex d) h2 = Return true h2.
Proof.
  intros h self o loc item a depth Hself (data_cls & Hcls & Hsub) Hins.
  destruct (insert_sound _ _ _ _ Hins) as (p & Hpos & ->).
  pose proof (insert_position_bound _ _ _ Hpos) as Hp.
  set (a1 := with_values (_data o) (insert_at p item (arr_values (_data o)))).
  set (o1 := {| ob_type := ob_type o; _data := a1; _name := _name o;
                _cache := ∅ |}).
  set (o2 := {| ob_type := ob_type o; _data := _data o; _name := _name o;
                _cache := ∅ |}).
  exists p, (length h), (h ++ [o1]), (length (h ++ [o1])),
    ((h ++ [o1]) ++ [o2]).
  assert (Hrun : insert (S depth) self loc item h
                 = Return (length h) (h ++ [o1])).
  { cbn [insert].
    rewrite (bind_Return _ _ _ _ _ (deref_Some _ _ _ Hself)).
    rewrite Hins. by erewrite _simple_new_ok. }
  assert (Hdel : delete (length h) (One (Z.of_nat p)) (h ++ [o1])
                 = Return (length (h ++ [o1])) ((h ++ [o1]) ++ [o2])).
  { unfold delete.
    rewrite (bind_Return _ _ _ _ _ (deref_Some _ _ _ (alloc_lookup h o1))).
    change (_data o1) with a1. change (ob_type o1) with (ob_type o).
    change (_name o1) with (_name o).
    rewrite delete_at
      by (subst a1; simpl; rewrite insert_at_length; lia).
    simpl. erewrite (bind_Return (ret _)); [|reflexivity].
    replace (with_values a1 (base.delete p (arr_values a1))) with (_data o).
    - by erewrite _simple_new_ok.
    - subst a1. unfold with_values at 1. simpl.
      rewrite (delete_insert_at _ _ _ Hp). by destruct (_data o). }
  assert (Hne : length (h ++ [o1]) <> self).
  { rewrite length_app. simpl.
    assert (self < length h) by (eapply lookup_lt_Some; eauto). lia. }
  assert (Hself2 : ((h ++ [o1]) ++ [o2]) !! self = Some o).
  { by do 2 apply lookup_app_l_Some. }
  pose proof (alloc_lookup (h ++ [o1]) o2) as Hr2.
  split; [exact Hpos|]. split; [exact Hrun|]. split; [exact Hdel|]. split.
  - unfold equals, is_. rewrite bool_decide_eq_false_2 by exact Hne.
    rewrite (bind_Return _ _ _ _ _ (deref_Some _ _ _ Hr2)).
    rewrite (bind_Return _ _ _ _ _ (deref_Some _ _ _ Hself2)).
    simpl. rewrite issubclass_refl, equals_refl. reflexivity.
  - unfold equals, is_. rewrite bool_decide_eq_false_2 by congruence.
    rewrite (bind_Return _ _ _ _ _ (deref_Some _ _ _ Hself2)).
    rewrite (bind_Return _ _ _ _ _ (deref_Some _ _ _ Hr2)).
    simpl. rewrite issubclass_refl, equals_refl. reflexivity.
Qed.

End InDtypeInsertion.

(** Witness of X11: a timestamp validated and inserted before the last
    element of the sample datetime index. *)
Lemma validated_value_inserts_in_dtype_witness :
  @insert Reference.collaborators 1 0 (-1) (STimestamp 25) Sample.store0
  = Return 9
      (Sample.store0
       ++ [mkIndex Reference.DatetimeIndex_t
             (mkArr Reference.DatetimeArray_t Sample.M8ns
                [STimestamp 10; STimestamp 20; STimestamp 25; STimestamp 30])
             (Some "x") ∅]).
Proof.
  apply (@validated_value_inserts_in_dtype Reference.collaborators
           Reference_contracts Sample.store0 0 Sample.dti (-1)
           (STimestamp 25) 2 0).
  - reflexivity.
  - exists "DatetimeArray". split; reflexivity.
  - reflexivity.
  - reflexivity.
Defined.

(** Witness of X12: the same insert, at [loc = -1], undone by deleting
    position 2. *)
Lemma insert_then_delete_recovers_witness :
  exists p r h1 d h2,
    insert_position (-1) (length (values_of Sample.dti)) = Some p
    /\ @insert Reference.collaborators 1 0 (-1) (STimestamp 25) Sample.store0
       = Return r h1
    /\ @delete Reference.collaborators r (One (Z.of_nat p)) h1 = Return d h2
    /\ @equals Reference.collaborators d (VIndex 0) h2 = Return true h2
    /\ @equals Reference.collaborators 0 (VIndex d) h2 = Return true h2.
Proof.
  apply (@insert_then_delete_recovers Reference.collaborators
           Reference_contracts Sample.store0 0 Sample.dti (-1)
           (STimestamp 25)
           (mkArr Reference.DatetimeArray_t Sample.M8ns
              [STimestamp 10; STimestamp 20; STimestamp 25; STimestamp 30])
           0).
  - reflexivity.
  - exists "DatetimeArray". split; reflexivity.
  - reflexivity.
Defined.

(** ** Arithmetic leaves the data alone *)

Section ArithmeticFrame.
Context `{Collaborators}.

Lemma keeps_data_refl (h : heap) : keeps_data h h.
Proof. intros l lo Hl. eauto. Qed.

Lemma keeps_data_trans (h1 h2 h3 : heap) :
  keeps_data h1 h2 -> keeps_data h2 h3 -> keeps_data h1 h3.
Proof.
  intros H12 H23 l lo Hl.
  destruct (H12 _ _ Hl) as (lo2 & Hl2 & Ht2 & Hd2 & Hc2).
  destruct (H23 _ _ Hl2) as (lo3 & Hl3 & Ht3 & Hd3 & Hc3).
  exists lo3. repeat split; congruence.
Qed.

Lemma extends_preserving {A} (c : M A) :
  extends_store c -> data_preserving c.
Proof.
  intros Hc h l lo Hl. exists lo. split; [|auto].
  eapply prefix_lookup_Some; [exact Hl|apply Hc].
Qed.

Lemma preserving_bind {A B} (c : M A) (k : A -> M B) :
  data_preserving c -> (forall a, data_preserving (k a)) ->
  data_preserving (bind c k).
Proof.
  intros Hc Hk h. unfold bind. specialize (Hc h).
  destruct (c h) as [a h1|e h1]; simpl in *; [|exact Hc].
  eapply keeps_data_trans; [exact Hc|apply Hk].
Qed.

Lemma set_name_preserving l name : data_preserving (set_name l name).
Proof.
  intros h. unfold set_name, bind, deref, store.
  destruct (h !! l) as [o|] eqn:Hl; simpl; [|apply keeps_data_refl].
  intros l' lo Hl'. destruct (decide (l' = l)) as [->|Hne].
  - assert (l < length h) by (eapply lookup_lt_Some; eauto).
    rewrite list_lookup_insert_eq by assumption.
    eexists. split; [reflexivity|]. simpl.
    assert (lo = o) by congruence. subst. auto.
  - rewrite list_lookup_insert_ne by congruence. eauto.
Qed.

Lemma Index_ctor_extends v name : extends_store (Index_ctor v name).
Proof.
  destruct v; simpl;
    try (apply extends_bind; [apply extends_lift|];
         intros; apply Index_new_allocates);
    try apply Index_new_allocates.
  apply extends_bind; [apply extends_deref|].
  intros; apply Index_new_allocates.
Qed.

Lemma operand_name_extends v : extends_store (operand_name v).
Proof.
  destruct v; simpl; try apply extends_ret.
  apply extends_bind; [apply extends_deref|]. intros; apply extends_ret.
Qed.

Lemma name_the_result_preserving self other (c : M loc) :
  extends_store c ->
  data_preserving
    (l <- c;;
     res_name <- get_op_result_name self other;;
     set_name l res_name;;; ret (VIndex l)).
Proof.
  intros Hc.
  apply preserving_bind; [by apply extends_preserving|]. intros l.
  apply preserving_bind.
  { apply extends_preserving. unfold get_op_result_name.
    apply extends_bind; [apply extends_deref|]. intros o.
    apply extends_bind; [apply operand_name_extends|]. intros r.
    apply extends_ret. }
  intros res_name.
  apply preserving_bind; [apply set_name_preserving|]. intros _.
  apply extends_preserving, extends_ret.
Qed.

Lemma _wrap_arithmetic_op_preserving self other :
  forall result, data_preserving (_wrap_arithmetic_op self other result).
Proof.
  fix IH 1. intros result.
  destruct result as [l| | | | | |xs|]; cbn [_wrap_arithmetic_op];
    try (apply name_the_result_preserving, Index_ctor_extends).
  - apply name_the_result_preserving, extends_ret.
  - destruct xs as [|r0 [|r1 [|r2 xs]]];
      try (apply extends_preserving, extends_raise).
    apply preserving_bind; [apply IH|]. intros w0.
    apply preserving_bind; [apply IH|]. intros w1.
    apply extends_preserving, extends_ret.
  - apply extends_preserving, extends_ret.
Qed.

(** X13: whatever the operands and whatever the array method answers, an
    arithmetic operator never changes the class, the data or the cache of
    an object that was in the store, whether it returns or raises; the only
    thing it can change on an existing object is a name. *)
Theorem arith_never_changes_data :
  forall opname (self : loc) (other : PyVal) (h : heap) (l : loc)
         (lo : IndexObj),
    h !! l = Some lo ->
    exists lo',
      outcome_heap (_make_wrapped_arith_op opname self other h) !! l
      = Some lo'
      /\ ob_type lo' = ob_type lo /\ _data lo' = _data lo
      /\ _cache lo' = _cache lo.
Proof.
  intros opname self other h.
  assert (Hop : data_preserving (_make_wrapped_arith_op opname self other)).
  { unfold _make_wrapped_arith_op.
    apply preserving_bind.
    { apply extends_preserving. destruct other; simpl; try apply extends_ret.
      apply extends_bind; [apply extends_deref|]. intros; apply extends_ret. }
    intros [|]; [apply extends_preserving, extends_ret|].
    apply preserving_bind; [apply extends_preserving, extends_deref|].
    intros o.
    destruct (ea_getattr (_data o) opname) as [meth|];
      [|apply extends_preserving, extends_raise].
    apply preserving_bind.
    { apply extends_preserving. destruct other; simpl; try apply extends_ret.
      apply extends_bind; [apply extends_deref|]. intros q.
      apply extends_bind; [apply extends_lift|]. intros; apply extends_ret. }
    intros unwrapped.
    apply preserving_bind; [apply extends_preserving, extends_lift|].
    intros result. apply _wrap_arithmetic_op_preserving. }
  exact (Hop h).
Qed.

End ArithmeticFrame.

(** Witness of X13: the divmod of the sample timedelta index leaves the
    index itself with its class and data. *)
Lemma arith_never_changes_data_witness :
  exists lo',
    outcome_heap (@_make_wrapped_arith_op Reference.collaborators
                    "__divmod__" 1 (VScalar (STimedelta 2)) Sample.store0)
    !! 1 = Some lo'
    /\ ob_type lo' = ob_type Sample.tdi_x /\ _data lo' = _data Sample.tdi_x
    /\ _cache lo' = _cache Sample.tdi_x.
Proof.
  apply (@arith_never_changes_data Reference.collaborators "__divmod__" 1
           (VScalar (STimedelta 2)) Sample.store0 1 Sample.tdi_x).
  reflexivity.
Defined.
